(** * Model adapters over task-dispatched estimators

    A shallow embedding of the two wrapper classes of
    [classic_or_regression_models]: [LightGBM] (LightGBM.py) and [SVMModel]
    (SVM.py).  Both are Python classes that pick an estimator of a
    third-party library from a [task] string, merge a fixed set of default
    keyword arguments with the caller's, and forward [fit], [predict],
    [predict_proba] and the evaluation metric to that estimator.

    What is modelled
    - Python values that can be a hyperparameter ([value]);
    - exceptions by class, with the text the source raises them with;
    - an object store ([heap]) for the estimator objects, so that the
      identity of the delegate and its in-place mutation by [fit] are
      visible;
    - the wrapper object as a record of optional attributes, mutated by the
      methods; a method is a function in the state-and-exception monad [M],
      where an exception keeps the mutations done before it;
    - the third-party library as an interface ([Library]): the wrappers
      are verified for every implementation of it. *)

From Stdlib Require Import ZArith QArith Ascii List.
From Stdlib Require String.
From stdpp Require Import base option list fin_maps gmap strings.

Local Close Scope Q_scope.

(** ** Python values *)

(** Values a keyword argument can take.  Floats are modelled as exact
    rationals. *)
Inductive value : Type :=
  | VNone
  | VBool (b : bool)
  | VInt (n : Z)
  | VFloat (q : Q)
  | VStr (s : string).

(** The keyword-argument dictionaries: [**lgbm_params], [**svm_params],
    [**params]. *)
Abbreviation kwargs := (gmap string value).

(** What [str.lower] does to a string of ASCII characters: the letters A
    to Z become a to z. *)
Definition lower_ascii (c : ascii) : ascii :=
  let n := nat_of_ascii c in
  if (65 <=? n)%nat && (n <=? 90)%nat then ascii_of_nat (n + 32) else c.

Fixpoint lower (s : string) : string :=
  match s with
  | EmptyString => EmptyString
  | String c s' => String (lower_ascii c) (lower s')
  end.

Fixpoint ascii_only (s : string) : bool :=
  match s with
  | EmptyString => true
  | String c s' => (nat_of_ascii c <? 128)%nat && ascii_only s'
  end.

(** [str.lower] itself belongs to Python, not to the repository, and works
    on every Unicode letter (a string here is the bytes of its UTF-8
    form).  It is a parameter: all that is used of it is what it does to a
    string of ASCII characters. *)
Class Python : Type := {
  str_lower : string → string;
  str_lower_ascii : ∀ s, ascii_only s = true → str_lower s = lower s
}.

(** The Python whose [str.lower] leaves every byte outside ASCII alone; the
    examples, which use ASCII task strings, run on it. *)
Definition ascii_python : Python :=
  {| str_lower := lower; str_lower_ascii := λ _ _, eq_refl |}.

(** [v == s] for a string literal [s]: a value of another type is never
    equal to a string. *)
Definition value_eq_str (v : value) (s : string) : bool :=
  match v with
  | VStr s' => String.eqb s' s
  | _ => false
  end.

(** ** Exceptions and the method monad *)

(** Exceptions by class.  The wrapper's own statements, and Python while
    it runs them (a call it refuses, an attribute that is missing), raise
    the first three.  The estimator library can raise an exception of any
    class, and the wrapper passes it on unchanged: its not-fitted error is
    an [AttributeError] as well as a [ValueError], and counts as the former
    here.  [DelegateError] stands for an exception of any other class. *)
Inductive exn : Type :=
  | ValueError (msg : string)
  | AttributeError (msg : string)
  | TypeError (msg : string)
  | DelegateError (msg : string).

Inductive result (A : Type) : Type :=
  | Ok (a : A)
  | Raise (e : exn).
Arguments Ok {A} a.
Arguments Raise {A} e.

Definition is_AttributeError {A} (r : result A) : bool :=
  match r with Raise (AttributeError _) => true | _ => false end.

(** A computation over a mutable state [S]: it returns or raises, and in
    both cases leaves a state behind. *)
Definition M (S A : Type) : Type := S → result A * S.

Global Instance M_ret {S} : MRet (M S) := λ A a s, (Ok a, s).
Global Instance M_bind {S} : MBind (M S) := λ A B f m s,
  match m s with
  | (Ok a, s') => f a s'
  | (Raise e, s') => (Raise e, s')
  end.

Definition raise {S A} (e : exn) : M S A := λ s, (Raise e, s).
(** A call of a function that touches no state. *)
Definition call {S A} (r : result A) : M S A := λ s, (r, s).

(** ** The estimator library *)

(** The four estimator classes the wrappers instantiate. *)
Inductive kind : Type := LGBMClassifier | LGBMRegressor | SVC | SVR.

(** Label and target vectors, and the rows of class probabilities. *)
Abbreviation targets := (list Q).
Abbreviation probabilities := (list (list Q)).

(** The keyword arguments [LightGBM.fit] adds to the estimator's [fit]. *)
Record fit_kwargs (features : Type) : Type := FitKwargs {
  eval_set : list (features * targets);
  early_stopping_rounds : Z;
  verbose : bool
}.
Arguments FitKwargs {features} _ _ _.

(** The estimator library is external: it is an interface here.  A library
    function that raises returns its exception.  [fit] works on the
    estimator in place: when it raises it also returns what the estimator
    is left with, which need not be what it had before the call. *)
Class Library : Type := {
  features : Type;
  learned : Type;
  (* the constructor of class [k] called with keyword arguments [kw] *)
  lib_new : kind → kwargs → option exn;
  lib_fit : kind → kwargs → option learned → features → targets →
            option (fit_kwargs features) → exn * option learned + learned;
  lib_predict : kind → kwargs → option learned → features → exn + targets;
  (* [hasattr(estimator, "predict_proba")] *)
  lib_has_predict_proba : kind → kwargs → bool;
  lib_predict_proba : kind → kwargs → option learned → features →
                      exn + probabilities
}.

Section estimators.
Context `{P : Python} `{L : Library}.

(** An estimator object: its class, the keyword arguments it was built
    with, and what [fit] has learned, if it was fitted. *)
Record estimator : Type := Estimator {
  est_kind : kind;
  est_kwargs : kwargs;
  est_learned : option learned
}.

(** The store of estimator objects; a reference is an index into it.
    Objects are never freed: a caller may still hold a reference. *)
Definition loc : Type := nat.
Definition heap : Type := list estimator.

Definition unfitted (e : estimator) : Prop := est_learned e = None.

(** [Class( **kw )]: a new object at a fresh reference. *)
Definition heap_new (k : kind) (kw : kwargs) (h : heap) : result loc * heap :=
  match lib_new k kw with
  | Some e => (Raise e, h)
  | None => (Ok (length h), h ++ [Estimator k kw None])
  end.

(** [est.fit(X, y)] and [est.fit(X, y, eval_set=.., early_stopping_rounds=..,
    verbose=..)]: the object at [l] is updated in place. *)
Definition heap_fit (l : loc) (X : features) (y : targets)
    (extra : option (fit_kwargs features)) (h : heap) : result () * heap :=
  match h !! l with
  | None => (Raise (AttributeError "dangling estimator reference"), h)
  | Some e =>
      match lib_fit (est_kind e) (est_kwargs e) (est_learned e) X y extra with
      | inl (err, rest) =>
          (Raise err, <[l := Estimator (est_kind e) (est_kwargs e) rest]> h)
      | inr st => (Ok (), <[l := Estimator (est_kind e) (est_kwargs e) (Some st)]> h)
      end
  end.

Definition heap_predict (l : loc) (X : features) (h : heap) : result targets * heap :=
  match h !! l with
  | None => (Raise (AttributeError "dangling estimator reference"), h)
  | Some e =>
      match lib_predict (est_kind e) (est_kwargs e) (est_learned e) X with
      | inl err => (Raise err, h)
      | inr p => (Ok p, h)
      end
  end.

Definition heap_hasattr_predict_proba (l : loc) (h : heap) : result bool * heap :=
  match h !! l with
  | None => (Raise (AttributeError "dangling estimator reference"), h)
  | Some e => (Ok (lib_has_predict_proba (est_kind e) (est_kwargs e)), h)
  end.

(** [est.predict_proba(X)]: the attribute lookup itself raises
    [AttributeError] on an estimator without the method. *)
Definition heap_predict_proba (l : loc) (X : features) (h : heap)
    : result probabilities * heap :=
  match h !! l with
  | None => (Raise (AttributeError "dangling estimator reference"), h)
  | Some e =>
      if lib_has_predict_proba (est_kind e) (est_kwargs e) then
        match lib_predict_proba (est_kind e) (est_kwargs e) (est_learned e) X with
        | inl err => (Raise err, h)
        | inr p => (Ok p, h)
        end
      else (Raise (AttributeError "object has no attribute 'predict_proba'"), h)
  end.

(** A heap operation run inside a method of an object of type [S]. *)
Definition on_heap {S A} (f : heap → result A * heap) : M (S * heap) A :=
  λ '(s, h), let '(r, h') := f h in (r, (s, h')).

Definition get_self {S} : M (S * heap) S := λ '(s, h), (Ok s, (s, h)).
Definition modify_self {S} (f : S → S) : M (S * heap) () :=
  λ '(s, h), (Ok (), (f s, h)).

(** Reading an attribute: [AttributeError] when it was never assigned. *)
Definition attr {S A} (field : S → option A) (name : string) : M (S * heap) A :=
  s ← get_self;
  match field s with
  | Some a => mret a
  | None => raise (AttributeError ("object has no attribute '" +:+ name +:+ "'"))
  end.

(** [Class(k1=v1, .., kn=vn, **extra)]: Python refuses the call with
    [TypeError] when [extra] repeats one of the keywords written out, before
    the constructor runs; otherwise the constructor receives all of them. *)
Definition keyword_clash (explicit : list (string * value)) (extra : kwargs) : bool :=
  existsb (λ kv, bool_decide (is_Some (extra !! kv.1))) explicit.

Definition new_with_keywords (k : kind) (explicit : list (string * value))
    (extra : kwargs) (h : heap) : result loc * heap :=
  if keyword_clash explicit extra
  then (Raise (TypeError "got multiple values for keyword argument"), h)
  else heap_new k (extra ∪ list_to_map explicit) h.

(** [task.lower()]: only a string has the method. *)
Definition py_lower {S} (task : value) : M S string :=
  match task with
  | VStr s => mret (str_lower s)
  | _ => raise (AttributeError "object has no attribute 'lower'")
  end.

End estimators.

(** ** The metrics *)

(** Modelled from the spec: [accuracy_score] and [mean_squared_error] are
    imported from the statistics library and are not part of the repository.
    The spec names them "accuracy" and "mean squared error": the fraction of
    positions where the prediction equals the label, and the mean of the
    squared differences.  They are defined on two vectors of the same
    positive length; on other inputs the model raises inside the library. *)
Fixpoint correct_predictions (y_true y_pred : targets) : nat :=
  match y_true, y_pred with
  | a :: y_true', b :: y_pred' =>
      (if Qeq_bool a b then 1 else 0) + correct_predictions y_true' y_pred'
  | _, _ => 0
  end.

Fixpoint squared_errors (y_true y_pred : targets) : Q :=
  match y_true, y_pred with
  | a :: y_true', b :: y_pred' =>
      ((a - b) * (a - b) + squared_errors y_true' y_pred')%Q
  | _, _ => 0%Q
  end.

Definition consistent_samples (y_true y_pred : targets) : bool :=
  (length y_true =? length y_pred) && (0 <? length y_true).

Definition accuracy_score (y_true y_pred : targets) : result Q :=
  if consistent_samples y_true y_pred
  then Ok (Z.of_nat (correct_predictions y_true y_pred) # Pos.of_nat (length y_true))%Q
  else Raise (DelegateError "inconsistent numbers of samples").

Definition mean_squared_error (y_true y_pred : targets) : result Q :=
  if consistent_samples y_true y_pred
  then Ok (squared_errors y_true y_pred * (1 # Pos.of_nat (length y_true)))%Q
  else Raise (DelegateError "inconsistent numbers of samples").

(** Truth value of an optional list and of an optional integer, as [if]
    tests them: [None], the empty list and [0] are false. *)
Definition truthy_list {A} (o : option (list A)) : bool :=
  match o with
  | Some (_ :: _) => true
  | _ => false
  end.

Definition truthy_int (o : option Z) : bool :=
  match o with
  | Some n => negb (n =? 0)%Z
  | None => false
  end.

(** ** LightGBM.py *)

Module LightGBM.
Section wrapper.
Context `{P : Python} `{L : Library}.

(** The attributes of a [LightGBM] object; [None] is an attribute not yet
    assigned. *)
Record object : Type := Object {
  self_task : option value;
  self_lgbm_params : option kwargs;
  self_model : option loc
}.

Definition blank : object := Object None None None.

Definition set_task (v : value) (o : object) : object :=
  Object (Some v) (self_lgbm_params o) (self_model o).
Definition set_lgbm_params (kw : kwargs) (o : object) : object :=
  Object (self_task o) (Some kw) (self_model o).
Definition set_model (l : loc) (o : object) : object :=
  Object (self_task o) (self_lgbm_params o) (Some l).

Local Abbreviation method A := (M (object * heap) A).

(** The keyword arguments written out in both constructor calls. *)
Definition defaults : list (string * value) :=
  [ ("n_estimators", VInt 100);
    ("learning_rate", VFloat 0.1%Q);
    ("max_depth", VInt (-1));
    ("num_leaves", VInt 31);
    ("boosting_type", VStr "gbdt");
    ("subsample", VFloat 0.8%Q);
    ("colsample_bytree", VFloat 0.8%Q);
    ("random_state", VInt 42) ].

Definition __init__ (task : value) (lgbm_params : kwargs) : method () :=
  t ← py_lower task;
  _ ← modify_self (set_task (VStr t));
  _ ← modify_self (set_lgbm_params lgbm_params);
  t ← attr self_task "task";
  if value_eq_str t "classification" then
    kw ← attr self_lgbm_params "lgbm_params";
    m ← on_heap (new_with_keywords LGBMClassifier defaults kw);
    modify_self (set_model m)
  else if value_eq_str t "regression" then
    kw ← attr self_lgbm_params "lgbm_params";
    m ← on_heap (new_with_keywords LGBMRegressor defaults kw);
    modify_self (set_model m)
  else raise (ValueError "Task must be 'classification' or 'regression'").

(** [LightGBM(task=task, **lgbm_params)]: a new object, returned when
    [__init__] returns; when it raises there is no object. *)
Definition construct (task : value) (lgbm_params : kwargs) (h : heap)
    : result object * heap :=
  match __init__ task lgbm_params (blank, h) with
  | (Ok _, (o, h')) => (Ok o, h')
  | (Raise e, (_, h')) => (Raise e, h')
  end.

(** [LightGBM( **kw )]: Python binds the entry [task] of [kw], or the default
    "classification", to the parameter [task] and the other entries to
    [lgbm_params]; an entry [self] clashes with the receiver. *)
Definition construct_kwargs (kw : kwargs) (h : heap) : result object * heap :=
  if bool_decide (is_Some (kw !! "self"))
  then (Raise (TypeError "got multiple values for argument 'self'"), h)
  else construct (default (VStr "classification") (kw !! "task")) (delete "task" kw) h.

Definition fit (X_train : features) (y_train : targets)
    (eval_set : option (list (features * targets)))
    (early_stopping_rounds : option Z) : method () :=
  if truthy_list eval_set && truthy_int early_stopping_rounds then
    m ← attr self_model "model";
    on_heap (heap_fit m X_train y_train
      (Some (FitKwargs (default [] eval_set) (default 0%Z early_stopping_rounds) false)))
  else
    m ← attr self_model "model";
    on_heap (heap_fit m X_train y_train None).

Definition predict (X : features) : method targets :=
  m ← attr self_model "model";
  on_heap (heap_predict m X).

Definition predict_proba (X : features) : method probabilities :=
  t ← attr self_task "task";
  if value_eq_str t "classification" then
    m ← attr self_model "model";
    on_heap (heap_predict_proba m X)
  else raise (AttributeError "predict_proba is only available for classification tasks").

(** Without a matching branch the method falls off its end and returns
    [None]. *)
Definition evaluate (X_test : features) (y_test : targets) : method (option Q) :=
  y_pred ← predict X_test;
  t ← attr self_task "task";
  if value_eq_str t "classification" then
    score ← call (accuracy_score y_test y_pred);
    mret (Some score)
  else if value_eq_str t "regression" then
    score ← call (mean_squared_error y_test y_pred);
    mret (Some score)
  else mret None.

(** One round of the loop of [set_params]. *)
Definition set_param (param : string) (v : value) : method () :=
  if String.eqb param "task" then modify_self (set_task v)
  else
    kw ← attr self_lgbm_params "lgbm_params";
    modify_self (set_lgbm_params (<[param := v]> kw)).

Definition set_params (params : kwargs) : method () :=
  _ ← map_fold (λ param v rest, _ ← set_param param v; rest) (mret ()) params;
  t ← attr self_task "task";
  kw ← attr self_lgbm_params "lgbm_params";
  __init__ t kw.

(** [{"task": self.task, **self.lgbm_params}]: a later entry replaces an
    earlier one. *)
Definition get_params : method kwargs :=
  t ← attr self_task "task";
  kw ← attr self_lgbm_params "lgbm_params";
  mret (kw ∪ {["task" := t]}).

(** The estimator class the branches of [__init__] select for a task
    string, for the statements below. *)
Definition estimator_class (t : string) : option kind :=
  if String.eqb t "classification" then Some LGBMClassifier
  else if String.eqb t "regression" then Some LGBMRegressor
  else None.

End wrapper.
End LightGBM.

(** ** SVM.py *)

Module SVMModel.
Section wrapper.
Context `{P : Python} `{L : Library}.

(** The attributes of an [SVMModel] object. *)
Record object : Type := Object {
  self_task : option value;
  self_svm_params : option kwargs;
  self_model : option loc
}.

Definition blank : object := Object None None None.

Definition set_task (v : value) (o : object) : object :=
  Object (Some v) (self_svm_params o) (self_model o).
Definition set_svm_params (kw : kwargs) (o : object) : object :=
  Object (self_task o) (Some kw) (self_model o).
Definition set_model (l : loc) (o : object) : object :=
  Object (self_task o) (self_svm_params o) (Some l).

Local Abbreviation method A := (M (object * heap) A).

(** The keyword arguments written out in the call of [SVC]. *)
Definition defaults_classification : list (string * value) :=
  [ ("kernel", VStr "rbf");
    ("C", VFloat 1.0%Q);
    ("gamma", VStr "scale");
    ("probability", VBool true);
    ("random_state", VInt 42) ].

(** The keyword arguments written out in the call of [SVR]. *)
Definition defaults_regression : list (string * value) :=
  [ ("kernel", VStr "rbf");
    ("C", VFloat 1.0%Q);
    ("gamma", VStr "scale");
    ("epsilon", VFloat 0.1%Q) ].

Definition __init__ (task : value) (svm_params : kwargs) : method () :=
  t ← py_lower task;
  _ ← modify_self (set_task (VStr t));
  _ ← modify_self (set_svm_params svm_params);
  t ← attr self_task "task";
  if value_eq_str t "classification" then
    kw ← attr self_svm_params "svm_params";
    m ← on_heap (new_with_keywords SVC defaults_classification kw);
    modify_self (set_model m)
  else if value_eq_str t "regression" then
    kw ← attr self_svm_params "svm_params";
    m ← on_heap (new_with_keywords SVR defaults_regression kw);
    modify_self (set_model m)
  else raise (ValueError "Task must be 'classification' or 'regression'").

(** [SVMModel(task=task, **svm_params)]. *)
Definition construct (task : value) (svm_params : kwargs) (h : heap)
    : result object * heap :=
  match __init__ task svm_params (blank, h) with
  | (Ok _, (o, h')) => (Ok o, h')
  | (Raise e, (_, h')) => (Raise e, h')
  end.

(** [SVMModel( **kw )]. *)
Definition construct_kwargs (kw : kwargs) (h : heap) : result object * heap :=
  if bool_decide (is_Some (kw !! "self"))
  then (Raise (TypeError "got multiple values for argument 'self'"), h)
  else construct (default (VStr "classification") (kw !! "task")) (delete "task" kw) h.

Definition fit (X_train : features) (y_train : targets) : method () :=
  m ← attr self_model "model";
  on_heap (heap_fit m X_train y_train None).

(** A call [fit(X, y, eval_set=.., early_stopping_rounds=..)] with the
    optional arguments of [LightGBM.fit]: the signature of [SVMModel.fit]
    has no such parameter and Python refuses the call before the body
    runs. *)
Definition fit_with_keywords (X_train : features) (y_train : targets)
    (eval_set : option (list (features * targets)))
    (early_stopping_rounds : option Z) : method () :=
  match eval_set, early_stopping_rounds with
  | None, None => fit X_train y_train
  | _, _ => raise (TypeError "fit() got an unexpected keyword argument")
  end.

Definition predict (X : features) : method targets :=
  m ← attr self_model "model";
  on_heap (heap_predict m X).

(** [and] evaluates [hasattr] only on a classification task. *)
Definition predict_proba (X : features) : method probabilities :=
  t ← attr self_task "task";
  supported ←
    (if value_eq_str t "classification" then
       m ← attr self_model "model";
       on_heap (heap_hasattr_predict_proba m)
     else mret false);
  if (supported : bool) then
    m ← attr self_model "model";
    on_heap (heap_predict_proba m X)
  else raise (AttributeError "Probability prediction is only available for classification tasks.").

Definition evaluate (X_test : features) (y_test : targets) : method (option Q) :=
  y_pred ← predict X_test;
  t ← attr self_task "task";
  if value_eq_str t "classification" then
    score ← call (accuracy_score y_test y_pred);
    mret (Some score)
  else if value_eq_str t "regression" then
    score ← call (mean_squared_error y_test y_pred);
    mret (Some score)
  else mret None.

Definition set_param (param : string) (v : value) : method () :=
  if String.eqb param "task" then modify_self (set_task v)
  else
    kw ← attr self_svm_params "svm_params";
    modify_self (set_svm_params (<[param := v]> kw)).

Definition set_params (params : kwargs) : method () :=
  _ ← map_fold (λ param v rest, _ ← set_param param v; rest) (mret ()) params;
  t ← attr self_task "task";
  kw ← attr self_svm_params "svm_params";
  __init__ t kw.

Definition get_params : method kwargs :=
  t ← attr self_task "task";
  kw ← attr self_svm_params "svm_params";
  mret (kw ∪ {["task" := t]}).

(** The estimator class and the written-out keywords the branches of
    [__init__] select for a task string, for the statements below. *)
Definition estimator_class (t : string) : option (kind * list (string * value)) :=
  if String.eqb t "classification" then Some (SVC, defaults_classification)
  else if String.eqb t "regression" then Some (SVR, defaults_regression)
  else None.

End wrapper.
End SVMModel.

(** ** A small estimator library to run the wrappers on

    An implementation of [Library] for the examples: a feature matrix is a
    column of numbers, [fit] remembers the training targets and whether it
    was given the early-stopping arguments, [predict] answers the column
    itself once fitted and raises the not-fitted error, an
    [AttributeError], before.  Constructors accept every keyword.  A classifier
    has [predict_proba], the support-vector one only when built with
    [probability=True]. *)
Definition toy_has_predict_proba (k : kind) (kw : kwargs) : bool :=
  match k with
  | LGBMClassifier => true
  | SVC => match kw !! "probability" with Some (VBool true) => true | _ => false end
  | LGBMRegressor | SVR => false
  end.

Definition toy_predict (st : option (targets * bool)) (X : list Q) : exn + targets :=
  match st with
  | None => inl (AttributeError "NotFittedError")
  | Some _ => inr X
  end.

Definition toy_predict_proba (st : option (targets * bool)) (X : list Q)
    : exn + probabilities :=
  match st with
  | None => inl (AttributeError "NotFittedError")
  | Some _ => inr (map (λ x, [(1 - x)%Q; x]) X)
  end.

Definition toy : Library := {|
  features := list Q;
  learned := targets * bool;
  lib_new := λ _ _, None;
  lib_fit := λ _ _ _ _ y extra, inr (y, bool_decide (is_Some extra));
  lib_predict := λ _ _ st X, toy_predict st X;
  lib_has_predict_proba := toy_has_predict_proba;
  lib_predict_proba := λ _ _ st X, toy_predict_proba st X
|}.

(** ** Adapters in working order

    What [__init__] establishes when it returns: the task is one of the two
    task strings, the dictionary has no entry named [task] and names none
    of the written-out keywords, and the estimator the object refers to is
    in the store, of the class of the task, built from the dictionary over
    the written-out keywords.  A method that raises half-way can leave an
    object that is not in working order. *)
Section working_order.
Context `{P : Python} `{L : Library}.

Definition lgbm_working (st : LightGBM.object * heap) : Prop :=
  ∃ s k kw l e,
    LightGBM.self_task st.1 = Some (VStr s) ∧
    LightGBM.estimator_class s = Some k ∧
    LightGBM.self_lgbm_params st.1 = Some kw ∧
    kw !! "task" = None ∧
    keyword_clash LightGBM.defaults kw = false ∧
    LightGBM.self_model st.1 = Some l ∧
    st.2 !! l = Some e ∧
    est_kind e = k ∧
    est_kwargs e = kw ∪ list_to_map LightGBM.defaults.

Definition svm_working (st : SVMModel.object * heap) : Prop :=
  ∃ s k explicit kw l e,
    SVMModel.self_task st.1 = Some (VStr s) ∧
    SVMModel.estimator_class s = Some (k, explicit) ∧
    SVMModel.self_svm_params st.1 = Some kw ∧
    kw !! "task" = None ∧
    keyword_clash explicit kw = false ∧
    SVMModel.self_model st.1 = Some l ∧
    st.2 !! l = Some e ∧
    est_kind e = k ∧
    est_kwargs e = kw ∪ list_to_map explicit.

End working_order.

(** * Properties *)

(** Unfolds the monad so that a method applied to a state computes. *)
Ltac run :=
  cbv [mbind M_bind mret M_ret attr get_self modify_self raise call on_heap py_lower].

Lemma bind_Ok {S A B} (m : M S A) (f : A → M S B) s a s' :
  m s = (Ok a, s') → (m ≫= f) s = f a s'.
Proof. unfold mbind, M_bind. by intros ->. Qed.

Lemma bind_Raise {S A B} (m : M S A) (f : A → M S B) s e s' :
  m s = (Raise e, s') → (m ≫= f) s = (Raise e, s').
Proof. unfold mbind, M_bind. by intros ->. Qed.

(** ** Strings and keyword arguments *)

Lemma lower_ascii_idemp c : lower_ascii (lower_ascii c) = lower_ascii c.
Proof. by destruct c as [[] [] [] [] [] [] [] []]. Qed.

Lemma lower_idemp s : lower (lower s) = lower s.
Proof. induction s as [|c s IH]; simpl; [done|]. by rewrite lower_ascii_idemp, IH. Qed.

(** A clash is a name that is both written out and in the dictionary. *)
Lemma keyword_clash_true explicit (extra : kwargs) :
  keyword_clash explicit extra = true ↔
  ∃ name, name ∈ explicit.*1 ∧ is_Some (extra !! name).
Proof.
  unfold keyword_clash. rewrite existsb_exists. split.
  - intros ([name v] & Hin & Hsome). apply bool_decide_eq_true in Hsome.
    exists name. split; [|done]. apply list_elem_of_fmap. exists (name, v).
    split; [done|]. by apply list_elem_of_In.
  - intros (name & Hin & Hsome). apply list_elem_of_fmap in Hin as ([name' v] & -> & Hin).
    exists (name', v). split; [by apply list_elem_of_In|]. by apply bool_decide_eq_true.
Qed.

Lemma keyword_clash_false explicit (extra : kwargs) :
  keyword_clash explicit extra = false ↔
  ∀ name, name ∈ explicit.*1 → extra !! name = None.
Proof.
  rewrite <-not_true_iff_false, keyword_clash_true. split.
  - intros Hno name Hin. destruct (extra !! name) eqn:E; [|done].
    destruct Hno. exists name. by rewrite E.
  - intros Hall (name & Hin & Hsome). rewrite (Hall name Hin) in Hsome. by destruct Hsome.
Qed.

(** What the constructor receives: the caller's value for a name the caller
    gave, the written-out value for the others. *)
Lemma merged_keywords_lookup explicit (extra : kwargs) name :
  (extra ∪ list_to_map explicit) !! name =
  match extra !! name with
  | Some v => Some v
  | None => (list_to_map explicit : kwargs) !! name
  end.
Proof. rewrite lookup_union. by destruct (extra !! name), (list_to_map explicit !! name). Qed.

Section estimator_facts.
Context `{P : Python} `{L : Library}.

Lemma new_with_keywords_Ok k explicit extra h l h' :
  new_with_keywords k explicit extra h = (Ok l, h') ↔
  keyword_clash explicit extra = false ∧
  lib_new k (extra ∪ list_to_map explicit) = None ∧
  l = length h ∧ h' = h ++ [Estimator k (extra ∪ list_to_map explicit) None].
Proof.
  unfold new_with_keywords, heap_new.
  destruct (keyword_clash explicit extra); [split; [done|by intros [? _]]|].
  destruct (lib_new k _); [split; [done|by intros (_ & ? & _)]|].
  split; [by intros [= <- <-]|by intros (_ & _ & -> & ->)].
Qed.

Lemma new_with_keywords_Raise k explicit extra h e h' :
  new_with_keywords k explicit extra h = (Raise e, h') → h' = h.
Proof.
  unfold new_with_keywords, heap_new.
  destruct (keyword_clash explicit extra); [by intros [= _ <-]|].
  destruct (lib_new k _); by intros [= <-].
Qed.

Lemma new_with_keywords_clash k explicit extra h :
  keyword_clash explicit extra = true →
  new_with_keywords k explicit extra h =
  (Raise (TypeError "got multiple values for keyword argument"), h).
Proof. unfold new_with_keywords. by intros ->. Qed.

(** The constructor call does not look at the store. *)
Lemma new_with_keywords_heap k explicit extra h1 h2 l h1' :
  new_with_keywords k explicit extra h1 = (Ok l, h1') →
  new_with_keywords k explicit extra h2 =
  (Ok (length h2), h2 ++ [Estimator k (extra ∪ list_to_map explicit) None]).
Proof.
  rewrite new_with_keywords_Ok. intros (Hc & Hn & _).
  by apply new_with_keywords_Ok.
Qed.

(** A new object is at a reference no existing object has, and the
    existing objects are as they were. *)
Lemma heap_alloc_fresh (h : heap) e :
  h !! length h = None ∧ (h ++ [e]) !! length h = Some e ∧
  ∀ l e', h !! l = Some e' → (h ++ [e]) !! l = Some e' ∧ l ≠ length h.
Proof.
  split_and!.
  - by apply lookup_ge_None.
  - rewrite lookup_app_r by done. by rewrite Nat.sub_diag.
  - intros l e' Hl. split; [by apply lookup_app_l_Some|].
    apply lookup_lt_Some in Hl. lia.
Qed.

End estimator_facts.

(** ** The metrics *)

Lemma correct_predictions_le y_true y_pred :
  correct_predictions y_true y_pred ≤ length y_true.
Proof.
  revert y_pred. induction y_true as [|a y IH]; intros [|b p]; simpl; try lia.
  specialize (IH p). destruct (Qeq_bool a b); lia.
Qed.

Lemma squared_errors_nonneg y_true y_pred : (0 <= squared_errors y_true y_pred)%Q.
Proof.
  revert y_pred. induction y_true as [|a y IH]; intros [|b p]; simpl; try done.
  assert (0 <= (a - b) * (a - b))%Q as Hsq.
  { generalize (a - b)%Q. intros [n d]. unfold Qle. simpl. nia. }
  specialize (IH p). apply (Qplus_le_compat 0 _ 0 _ Hsq IH).
Qed.

Lemma accuracy_score_Ok y_true y_pred :
  length y_pred = length y_true → y_true ≠ [] →
  accuracy_score y_true y_pred =
  Ok (Z.of_nat (correct_predictions y_true y_pred) # Pos.of_nat (length y_true))%Q.
Proof.
  intros Hlen Hne. unfold accuracy_score, consistent_samples.
  rewrite Hlen, Nat.eqb_refl. destruct y_true; [done|]. done.
Qed.

Lemma accuracy_score_bounds y_true y_pred acc :
  accuracy_score y_true y_pred = Ok acc → (0 <= acc <= 1)%Q.
Proof.
  unfold accuracy_score, consistent_samples. destruct (_ && _) eqn:Hc; [|done].
  intros [= <-]. apply andb_true_iff in Hc as [_ Hpos%Nat.ltb_lt].
  pose proof (correct_predictions_le y_true y_pred).
  unfold Qle. simpl. rewrite <-positive_nat_Z, Nat2Pos.id by lia. lia.
Qed.

Lemma mean_squared_error_Ok y_true y_pred :
  length y_pred = length y_true → y_true ≠ [] →
  mean_squared_error y_true y_pred =
  Ok (squared_errors y_true y_pred * (1 # Pos.of_nat (length y_true)))%Q.
Proof.
  intros Hlen Hne. unfold mean_squared_error, consistent_samples.
  rewrite Hlen, Nat.eqb_refl. destruct y_true; [done|]. done.
Qed.

Lemma mean_squared_error_nonneg y_true y_pred mse :
  mean_squared_error y_true y_pred = Ok mse → (0 <= mse)%Q.
Proof.
  unfold mean_squared_error. destruct (consistent_samples _ _); [|done].
  intros [= <-]. apply Qmult_le_0_compat; [apply squared_errors_nonneg|done].
Qed.

(** ** LightGBM: the methods in closed form *)

Section lightgbm_facts.
Context `{P : Python} `{L : Library}.
Local Arguments new_with_keywords : simpl never.
Local Arguments heap_predict : simpl never.
Local Arguments heap_predict_proba : simpl never.
Local Arguments heap_fit : simpl never.

Lemma lgbm_init_eq s kw o h :
  LightGBM.__init__ (VStr s) kw (o, h) =
  let o1 := LightGBM.Object (Some (VStr (str_lower s))) (Some kw) (LightGBM.self_model o) in
  match LightGBM.estimator_class (str_lower s) with
  | None => (Raise (ValueError "Task must be 'classification' or 'regression'"), (o1, h))
  | Some k =>
      match new_with_keywords k LightGBM.defaults kw h with
      | (Ok l, h') => (Ok (), (LightGBM.set_model l o1, h'))
      | (Raise e, h') => (Raise e, (o1, h'))
      end
  end.
Proof.
  unfold LightGBM.__init__, LightGBM.estimator_class,
    LightGBM.set_task, LightGBM.set_lgbm_params.
  run. simpl.
  destruct (String.eqb (str_lower s) "classification").
  - simpl. by destruct (new_with_keywords _ _ _ _) as [[]].
  - destruct (String.eqb (str_lower s) "regression"); [|done].
    simpl. by destruct (new_with_keywords _ _ _ _) as [[]].
Qed.

(** A task that is not a string stops [__init__] at [task.lower()], before
    any attribute is assigned. *)
Lemma lgbm_init_not_str t kw st :
  (∀ s, t ≠ VStr s) →
  LightGBM.__init__ t kw st =
  (Raise (AttributeError "object has no attribute 'lower'"), st).
Proof. intros Ht. destruct t; try done. by destruct (Ht s). Qed.

Lemma lgbm_construct_eq s kw h :
  LightGBM.construct (VStr s) kw h =
  match LightGBM.estimator_class (str_lower s) with
  | None => (Raise (ValueError "Task must be 'classification' or 'regression'"), h)
  | Some k =>
      match new_with_keywords k LightGBM.defaults kw h with
      | (Ok l, h') => (Ok (LightGBM.Object (Some (VStr (str_lower s))) (Some kw) (Some l)), h')
      | (Raise e, h') => (Raise e, h')
      end
  end.
Proof.
  unfold LightGBM.construct. rewrite lgbm_init_eq. simpl.
  destruct (LightGBM.estimator_class _); [|done].
  by destruct (new_with_keywords _ _ _ _) as [[]].
Qed.

(** The loop of [set_params]: [task] goes to the attribute, every other
    entry into the dictionary; the order of the rounds does not matter. *)
Lemma lgbm_set_params_loop (params : kwargs) o h old :
  LightGBM.self_lgbm_params o = Some old →
  map_fold (λ param v rest, _ ← LightGBM.set_param param v; rest) (mret ()) params (o, h) =
  (Ok (), (LightGBM.Object
             (match params !! "task" with Some v => Some v | None => LightGBM.self_task o end)
             (Some (delete "task" params ∪ old)) (LightGBM.self_model o), h)).
Proof.
  revert o old.
  apply (map_fold_weak_ind (λ (r : M (LightGBM.object * heap) ()) (m : kwargs),
    ∀ o old, LightGBM.self_lgbm_params o = Some old →
      r (o, h) = (Ok (), (LightGBM.Object
             (match m !! "task" with Some v => Some v | None => LightGBM.self_task o end)
             (Some (delete "task" m ∪ old)) (LightGBM.self_model o), h)))).
  - intros [t p m] old Hp; simpl in *. subst p. run.
    by rewrite lookup_empty, delete_empty, (left_id_L ∅ (∪)).
  - intros i x m r Hi IH o old Hp.
    unfold LightGBM.set_param. destruct (String.eqb_spec i "task") as [->|Hne].
    + run. rewrite (IH _ old) by done. simpl.
      rewrite Hi, lookup_insert_eq, delete_insert_eq. done.
    + run. rewrite Hp.
      rewrite (IH _ (<[i:=x]> old)) by done. simpl.
      rewrite lookup_insert_ne by done.
      rewrite delete_insert_ne by done.
      rewrite <-insert_union_l, insert_union_r; [done|].
      by rewrite lookup_delete_ne.
Qed.

(** [set_params] is the merge followed by [__init__] on the object. *)
Lemma lgbm_set_params_eq (params : kwargs) o h old t :
  LightGBM.self_lgbm_params o = Some old →
  match params !! "task" with Some v => Some v | None => LightGBM.self_task o end = Some t →
  LightGBM.set_params params (o, h) =
  LightGBM.__init__ t (delete "task" params ∪ old)
    (LightGBM.Object (Some t) (Some (delete "task" params ∪ old)) (LightGBM.self_model o), h).
Proof.
  intros Hold Ht. unfold LightGBM.set_params.
  unfold mbind at 1, M_bind at 1. rewrite (lgbm_set_params_loop _ _ _ old Hold).
  rewrite Ht. by run.
Qed.

Lemma lgbm_predict_eq X o h l :
  LightGBM.self_model o = Some l →
  LightGBM.predict X (o, h) = (fst (heap_predict l X h), (o, h)).
Proof.
  intros Hm. unfold LightGBM.predict. run. rewrite Hm.
  unfold heap_predict. destruct (h !! l); [|done]. by destruct (lib_predict _ _ _ _).
Qed.

Lemma lgbm_predict_proba_eq X o h t :
  LightGBM.self_task o = Some t →
  LightGBM.predict_proba X (o, h) =
  if value_eq_str t "classification" then
    match LightGBM.self_model o with
    | Some l => (fst (heap_predict_proba l X h), (o, h))
    | None => (Raise (AttributeError "object has no attribute 'model'"), (o, h))
    end
  else (Raise (AttributeError "predict_proba is only available for classification tasks"),
        (o, h)).
Proof.
  intros Ht. unfold LightGBM.predict_proba. run. rewrite Ht.
  destruct (value_eq_str t "classification"); [|done].
  destruct (LightGBM.self_model o) as [l|]; [|done].
  unfold heap_predict_proba. destruct (h !! l); [|done].
  destruct (lib_has_predict_proba _ _); [|done]. by destruct (lib_predict_proba _ _ _ _).
Qed.

Lemma lgbm_predict_Ok X o h y_pred :
  fst (LightGBM.predict X (o, h)) = Ok y_pred →
  LightGBM.predict X (o, h) = (Ok y_pred, (o, h)).
Proof.
  destruct (LightGBM.self_model o) as [l|] eqn:Hm.
  - rewrite (lgbm_predict_eq _ _ _ l Hm). simpl. by intros ->.
  - unfold LightGBM.predict. run. by rewrite Hm.
Qed.

Lemma lgbm_evaluate_eq X y o h y_pred :
  fst (LightGBM.predict X (o, h)) = Ok y_pred →
  LightGBM.evaluate X y (o, h) =
  match LightGBM.self_task o with
  | None => (Raise (AttributeError "object has no attribute 'task'"), (o, h))
  | Some t =>
      if value_eq_str t "classification" then
        match accuracy_score y y_pred with
        | Ok score => (Ok (Some score), (o, h))
        | Raise e => (Raise e, (o, h))
        end
      else if value_eq_str t "regression" then
        match mean_squared_error y y_pred with
        | Ok score => (Ok (Some score), (o, h))
        | Raise e => (Raise e, (o, h))
        end
      else (Ok None, (o, h))
  end.
Proof.
  intros Hp%lgbm_predict_Ok. unfold LightGBM.evaluate.
  rewrite (bind_Ok _ _ _ _ _ Hp). run.
  destruct (LightGBM.self_task o) as [t|]; [|done].
  destruct (value_eq_str t "classification"); [by destruct (accuracy_score _ _)|].
  destruct (value_eq_str t "regression"); [by destruct (mean_squared_error _ _)|done].
Qed.

Lemma lgbm_fit_eq X y es r o h l :
  LightGBM.self_model o = Some l →
  LightGBM.fit X y es r (o, h) =
  let extra :=
    if truthy_list es && truthy_int r
    then Some (FitKwargs (default [] es) (default 0%Z r) false) else None in
  let '(res, h') := heap_fit l X y extra h in (res, (o, h')).
Proof.
  intros Hm. unfold LightGBM.fit.
  destruct (truthy_list es && truthy_int r); run; rewrite Hm; simpl;
    by destruct (heap_fit _ _ _ _ _).
Qed.

Lemma lgbm_get_params_eq o h t kw :
  LightGBM.self_task o = Some t → LightGBM.self_lgbm_params o = Some kw →
  LightGBM.get_params (o, h) = (Ok (kw ∪ {["task" := t]}), (o, h)).
Proof. intros Ht Hkw. unfold LightGBM.get_params. run. by rewrite Ht, Hkw. Qed.

End lightgbm_facts.

(** ** SVMModel: the methods in closed form *)

Section svm_facts.
Context `{P : Python} `{L : Library}.
Local Arguments new_with_keywords : simpl never.
Local Arguments heap_predict : simpl never.
Local Arguments heap_predict_proba : simpl never.
Local Arguments heap_fit : simpl never.
Local Arguments heap_hasattr_predict_proba : simpl never.

Lemma svm_init_eq s kw o h :
  SVMModel.__init__ (VStr s) kw (o, h) =
  let o1 := SVMModel.Object (Some (VStr (str_lower s))) (Some kw) (SVMModel.self_model o) in
  match SVMModel.estimator_class (str_lower s) with
  | None => (Raise (ValueError "Task must be 'classification' or 'regression'"), (o1, h))
  | Some (k, explicit) =>
      match new_with_keywords k explicit kw h with
      | (Ok l, h') => (Ok (), (SVMModel.set_model l o1, h'))
      | (Raise e, h') => (Raise e, (o1, h'))
      end
  end.
Proof.
  unfold SVMModel.__init__, SVMModel.estimator_class,
    SVMModel.set_task, SVMModel.set_svm_params.
  run. simpl.
  destruct (String.eqb (str_lower s) "classification").
  - simpl. by destruct (new_with_keywords _ _ _ _) as [[]].
  - destruct (String.eqb (str_lower s) "regression"); [|done].
    simpl. by destruct (new_with_keywords _ _ _ _) as [[]].
Qed.

(** A task that is not a string stops [__init__] at [task.lower()], before
    any attribute is assigned. *)
Lemma svm_init_not_str t kw st :
  (∀ s, t ≠ VStr s) →
  SVMModel.__init__ t kw st =
  (Raise (AttributeError "object has no attribute 'lower'"), st).
Proof. intros Ht. destruct t; try done. by destruct (Ht s). Qed.

Lemma svm_construct_eq s kw h :
  SVMModel.construct (VStr s) kw h =
  match SVMModel.estimator_class (str_lower s) with
  | None => (Raise (ValueError "Task must be 'classification' or 'regression'"), h)
  | Some (k, explicit) =>
      match new_with_keywords k explicit kw h with
      | (Ok l, h') => (Ok (SVMModel.Object (Some (VStr (str_lower s))) (Some kw) (Some l)), h')
      | (Raise e, h') => (Raise e, h')
      end
  end.
Proof.
  unfold SVMModel.construct. rewrite svm_init_eq. simpl.
  destruct (SVMModel.estimator_class _) as [[k explicit]|]; [|done].
  by destruct (new_with_keywords _ _ _ _) as [[]].
Qed.

(** The loop of [set_params]: [task] goes to the attribute, every other
    entry into the dictionary; the order of the rounds does not matter. *)
Lemma svm_set_params_loop (params : kwargs) o h old :
  SVMModel.self_svm_params o = Some old →
  map_fold (λ param v rest, _ ← SVMModel.set_param param v; rest) (mret ()) params (o, h) =
  (Ok (), (SVMModel.Object
             (match params !! "task" with Some v => Some v | None => SVMModel.self_task o end)
             (Some (delete "task" params ∪ old)) (SVMModel.self_model o), h)).
Proof.
  revert o old.
  apply (map_fold_weak_ind (λ (r : M (SVMModel.object * heap) ()) (m : kwargs),
    ∀ o old, SVMModel.self_svm_params o = Some old →
      r (o, h) = (Ok (), (SVMModel.Object
             (match m !! "task" with Some v => Some v | None => SVMModel.self_task o end)
             (Some (delete "task" m ∪ old)) (SVMModel.self_model o), h)))).
  - intros [t p m] old Hp; simpl in *. subst p. run.
    by rewrite lookup_empty, delete_empty, (left_id_L ∅ (∪)).
  - intros i x m r Hi IH o old Hp.
    unfold SVMModel.set_param. destruct (String.eqb_spec i "task") as [->|Hne].
    + run. rewrite (IH _ old) by done. simpl.
      rewrite Hi, lookup_insert_eq, delete_insert_eq. done.
    + run. rewrite Hp.
      rewrite (IH _ (<[i:=x]> old)) by done. simpl.
      rewrite lookup_insert_ne by done.
      rewrite delete_insert_ne by done.
      rewrite <-insert_union_l, insert_union_r; [done|].
      by rewrite lookup_delete_ne.
Qed.

(** [set_params] is the merge followed by [__init__] on the object. *)
Lemma svm_set_params_eq (params : kwargs) o h old t :
  SVMModel.self_svm_params o = Some old →
  match params !! "task" with Some v => Some v | None => SVMModel.self_task o end = Some t →
  SVMModel.set_params params (o, h) =
  SVMModel.__init__ t (delete "task" params ∪ old)
    (SVMModel.Object (Some t) (Some (delete "task" params ∪ old)) (SVMModel.self_model o), h).
Proof.
  intros Hold Ht. unfold SVMModel.set_params.
  unfold mbind at 1, M_bind at 1. rewrite (svm_set_params_loop _ _ _ old Hold).
  rewrite Ht. by run.
Qed.

Lemma svm_predict_eq X o h l :
  SVMModel.self_model o = Some l →
  SVMModel.predict X (o, h) = (fst (heap_predict l X h), (o, h)).
Proof.
  intros Hm. unfold SVMModel.predict. run. rewrite Hm.
  unfold heap_predict. destruct (h !! l); [|done]. by destruct (lib_predict _ _ _ _).
Qed.

Lemma svm_predict_proba_eq X o h t l e :
  SVMModel.self_task o = Some t → SVMModel.self_model o = Some l → h !! l = Some e →
  SVMModel.predict_proba X (o, h) =
  if value_eq_str t "classification" && lib_has_predict_proba (est_kind e) (est_kwargs e)
  then (fst (heap_predict_proba l X h), (o, h))
  else (Raise (AttributeError "Probability prediction is only available for classification tasks."),
        (o, h)).
Proof.
  intros Ht Hm He. unfold SVMModel.predict_proba. run. rewrite Ht.
  destruct (value_eq_str t "classification"); [|done].
  rewrite Hm. unfold heap_hasattr_predict_proba, heap_predict_proba. simpl.
  rewrite He. simpl.
  destruct (lib_has_predict_proba _ _) eqn:Hhas; [|done].
  rewrite Hm. simpl. rewrite He, Hhas. by destruct (lib_predict_proba _ _ _ _).
Qed.

Lemma svm_predict_Ok X o h y_pred :
  fst (SVMModel.predict X (o, h)) = Ok y_pred →
  SVMModel.predict X (o, h) = (Ok y_pred, (o, h)).
Proof.
  destruct (SVMModel.self_model o) as [l|] eqn:Hm.
  - rewrite (svm_predict_eq _ _ _ l Hm). simpl. by intros ->.
  - unfold SVMModel.predict. run. by rewrite Hm.
Qed.

Lemma svm_evaluate_eq X y o h y_pred :
  fst (SVMModel.predict X (o, h)) = Ok y_pred →
  SVMModel.evaluate X y (o, h) =
  match SVMModel.self_task o with
  | None => (Raise (AttributeError "object has no attribute 'task'"), (o, h))
  | Some t =>
      if value_eq_str t "classification" then
        match accuracy_score y y_pred with
        | Ok score => (Ok (Some score), (o, h))
        | Raise e => (Raise e, (o, h))
        end
      else if value_eq_str t "regression" then
        match mean_squared_error y y_pred with
        | Ok score => (Ok (Some score), (o, h))
        | Raise e => (Raise e, (o, h))
        end
      else (Ok None, (o, h))
  end.
Proof.
  intros Hp%svm_predict_Ok. unfold SVMModel.evaluate.
  rewrite (bind_Ok _ _ _ _ _ Hp). run.
  destruct (SVMModel.self_task o) as [t|]; [|done].
  destruct (value_eq_str t "classification"); [by destruct (accuracy_score _ _)|].
  destruct (value_eq_str t "regression"); [by destruct (mean_squared_error _ _)|done].
Qed.

Lemma svm_fit_eq X y o h l :
  SVMModel.self_model o = Some l →
  SVMModel.fit X y (o, h) =
  let '(res, h') := heap_fit l X y None h in (res, (o, h')).
Proof.
  intros Hm. unfold SVMModel.fit. run. rewrite Hm. simpl.
  by destruct (heap_fit _ _ _ _ _).
Qed.

Lemma svm_get_params_eq o h t kw :
  SVMModel.self_task o = Some t → SVMModel.self_svm_params o = Some kw →
  SVMModel.get_params (o, h) = (Ok (kw ∪ {["task" := t]}), (o, h)).
Proof. intros Ht Hkw. unfold SVMModel.get_params. run. by rewrite Ht, Hkw. Qed.

End svm_facts.

(** ** The task strings *)

Section task_strings.
Context `{P : Python} `{L : Library}.

Lemma str_lower_classification : str_lower "classification" = "classification".
Proof. by rewrite str_lower_ascii. Qed.

Lemma str_lower_regression : str_lower "regression" = "regression".
Proof. by rewrite str_lower_ascii. Qed.

Lemma lgbm_estimator_class_cases s k :
  LightGBM.estimator_class s = Some k →
  s = "classification" ∧ k = LGBMClassifier ∨ s = "regression" ∧ k = LGBMRegressor.
Proof.
  unfold LightGBM.estimator_class.
  destruct (String.eqb_spec s "classification") as [->|_]; [intros [= <-]; by left|].
  destruct (String.eqb_spec s "regression") as [->|_]; [intros [= <-]; by right|done].
Qed.

Lemma svm_estimator_class_cases s k explicit :
  SVMModel.estimator_class s = Some (k, explicit) →
  s = "classification" ∧ k = SVC ∧ explicit = SVMModel.defaults_classification ∨
  s = "regression" ∧ k = SVR ∧ explicit = SVMModel.defaults_regression.
Proof.
  unfold SVMModel.estimator_class.
  destruct (String.eqb_spec s "classification") as [->|_]; [intros [= <- <-]; by left|].
  destruct (String.eqb_spec s "regression") as [->|_]; [intros [= <- <-]; by right|done].
Qed.

Lemma lgbm_estimator_class_lower s k :
  LightGBM.estimator_class s = Some k → str_lower s = s.
Proof.
  intros [[-> _]|[-> _]]%lgbm_estimator_class_cases;
    [apply str_lower_classification|apply str_lower_regression].
Qed.

Lemma svm_estimator_class_lower s k explicit :
  SVMModel.estimator_class s = Some (k, explicit) → str_lower s = s.
Proof.
  intros [[-> _]|[-> _]]%svm_estimator_class_cases;
    [apply str_lower_classification|apply str_lower_regression].
Qed.

End task_strings.

(** ** Construction *)

Section construct_facts.
Context `{P : Python} `{L : Library}.

Lemma lgbm_construct_Ok s kw h o h' :
  LightGBM.construct (VStr s) kw h = (Ok o, h') ↔
  ∃ k, LightGBM.estimator_class (str_lower s) = Some k ∧
       keyword_clash LightGBM.defaults kw = false ∧
       lib_new k (kw ∪ list_to_map LightGBM.defaults) = None ∧
       o = LightGBM.Object (Some (VStr (str_lower s))) (Some kw) (Some (length h)) ∧
       h' = h ++ [Estimator k (kw ∪ list_to_map LightGBM.defaults) None].
Proof.
  rewrite lgbm_construct_eq.
  destruct (LightGBM.estimator_class (str_lower s)) as [k|]; [|split; [done|by intros (? & ? & _)]].
  destruct (new_with_keywords k LightGBM.defaults kw h) as [[l|e] h1] eqn:Hnew.
  - apply new_with_keywords_Ok in Hnew as (Hc & Hn & -> & ->). split.
    + intros [= <- <-]. by exists k.
    + by intros (? & [= <-] & _ & _ & -> & ->).
  - split; [done|]. intros (k' & [= <-] & Hc & Hn & _).
    assert (new_with_keywords k LightGBM.defaults kw h =
            (Ok (length h), h ++ [Estimator k (kw ∪ list_to_map LightGBM.defaults) None]))
      as Hok by by apply new_with_keywords_Ok.
    congruence.
Qed.

Lemma svm_construct_Ok s kw h o h' :
  SVMModel.construct (VStr s) kw h = (Ok o, h') ↔
  ∃ k explicit, SVMModel.estimator_class (str_lower s) = Some (k, explicit) ∧
       keyword_clash explicit kw = false ∧
       lib_new k (kw ∪ list_to_map explicit) = None ∧
       o = SVMModel.Object (Some (VStr (str_lower s))) (Some kw) (Some (length h)) ∧
       h' = h ++ [Estimator k (kw ∪ list_to_map explicit) None].
Proof.
  rewrite svm_construct_eq.
  destruct (SVMModel.estimator_class (str_lower s)) as [[k explicit]|];
    [|split; [done|by intros (? & ? & ? & _)]].
  destruct (new_with_keywords k explicit kw h) as [[l|e] h1] eqn:Hnew.
  - apply new_with_keywords_Ok in Hnew as (Hc & Hn & -> & ->). split.
    + intros [= <- <-]. by exists k, explicit.
    + by intros (? & ? & [= <- <-] & _ & _ & -> & ->).
  - split; [done|]. intros (k' & ex' & [= <- <-] & Hc & Hn & _).
    assert (new_with_keywords k explicit kw h =
            (Ok (length h), h ++ [Estimator k (kw ∪ list_to_map explicit) None]))
      as Hok by by apply new_with_keywords_Ok.
    congruence.
Qed.

(** A caller's keyword that is also written out in the constructor call
    stops the construction, whatever its value. *)
Lemma lgbm_construct_clash s kw h k :
  LightGBM.estimator_class (str_lower s) = Some k →
  keyword_clash LightGBM.defaults kw = true →
  LightGBM.construct (VStr s) kw h =
  (Raise (TypeError "got multiple values for keyword argument"), h).
Proof.
  intros Hk Hc. rewrite lgbm_construct_eq, Hk.
  by rewrite (new_with_keywords_clash _ _ _ _ Hc).
Qed.

Lemma svm_construct_clash s kw h k explicit :
  SVMModel.estimator_class (str_lower s) = Some (k, explicit) →
  keyword_clash explicit kw = true →
  SVMModel.construct (VStr s) kw h =
  (Raise (TypeError "got multiple values for keyword argument"), h).
Proof.
  intros Hk Hc. rewrite svm_construct_eq, Hk.
  by rewrite (new_with_keywords_clash _ _ _ _ Hc).
Qed.

Lemma lgbm_construct_invalid s kw h :
  LightGBM.estimator_class (str_lower s) = None →
  LightGBM.construct (VStr s) kw h =
  (Raise (ValueError "Task must be 'classification' or 'regression'"), h).
Proof. intros Hk. by rewrite lgbm_construct_eq, Hk. Qed.

Lemma svm_construct_invalid s kw h :
  SVMModel.estimator_class (str_lower s) = None →
  SVMModel.construct (VStr s) kw h =
  (Raise (ValueError "Task must be 'classification' or 'regression'"), h).
Proof. intros Hk. by rewrite svm_construct_eq, Hk. Qed.

Lemma lgbm_estimator_class_None t :
  String.eqb t "classification" = false → String.eqb t "regression" = false →
  LightGBM.estimator_class t = None.
Proof. unfold LightGBM.estimator_class. by intros -> ->. Qed.

Lemma svm_estimator_class_None t :
  String.eqb t "classification" = false → String.eqb t "regression" = false →
  SVMModel.estimator_class t = None.
Proof. unfold SVMModel.estimator_class. by intros -> ->. Qed.

End construct_facts.

(** C1: the claim is that [construct] succeeds for every keyword mapping
    and lets the caller's value replace a default.  The code writes the
    defaults out as keywords next to the caller's dictionary, so a caller
    who names a default is refused: the four constructor calls of the
    example blocks at the end of LightGBM.py and SVM.py all raise
    [TypeError], for every estimator library and every store. *)
Theorem C1_naming_a_default_raises_TypeError `{P : Python} `{L : Library} (h : heap) :
  LightGBM.construct (VStr "classification")
    {[ "n_estimators" := VInt 200; "max_depth" := VInt 5 ]} h
  = (Raise (TypeError "got multiple values for keyword argument"), h) ∧
  LightGBM.construct (VStr "regression")
    {[ "n_estimators" := VInt 200; "learning_rate" := VFloat 0.05%Q ]} h
  = (Raise (TypeError "got multiple values for keyword argument"), h) ∧
  SVMModel.construct (VStr "classification")
    {[ "C" := VFloat 0.5%Q; "kernel" := VStr "linear" ]} h
  = (Raise (TypeError "got multiple values for keyword argument"), h) ∧
  SVMModel.construct (VStr "regression")
    {[ "C" := VFloat 0.5%Q; "kernel" := VStr "linear" ]} h
  = (Raise (TypeError "got multiple values for keyword argument"), h).
Proof.
  split_and!.
  - apply (lgbm_construct_clash _ _ _ LGBMClassifier); [|done].
    by rewrite str_lower_classification.
  - apply (lgbm_construct_clash _ _ _ LGBMRegressor); [|done].
    by rewrite str_lower_regression.
  - apply (svm_construct_clash _ _ _ SVC SVMModel.defaults_classification); [|done].
    by rewrite str_lower_classification.
  - apply (svm_construct_clash _ _ _ SVR SVMModel.defaults_regression); [|done].
    by rewrite str_lower_regression.
Qed.

(** C3, as amended: a task string whose lower-case form is neither
    "classification" nor "regression" makes [construct] raise the
    [ValueError] of the source, for every keyword mapping; no object is
    returned and no estimator is created. *)
Theorem C3_unrecognized_task_raises_ValueError `{P : Python} `{L : Library}
    (s : string) (kw : kwargs) (h : heap) :
  String.eqb (str_lower s) "classification" = false →
  String.eqb (str_lower s) "regression" = false →
  LightGBM.construct (VStr s) kw h =
    (Raise (ValueError "Task must be 'classification' or 'regression'"), h) ∧
  SVMModel.construct (VStr s) kw h =
    (Raise (ValueError "Task must be 'classification' or 'regression'"), h).
Proof.
  intros H1 H2. split.
  - by apply lgbm_construct_invalid, lgbm_estimator_class_None.
  - by apply svm_construct_invalid, svm_estimator_class_None.
Qed.

Lemma C3_witness_invalid :
  LightGBM.construct (P:=ascii_python) (L:=toy) (VStr "invalid") {[ "num_leaves" := VInt 7 ]} [] =
    (Raise (ValueError "Task must be 'classification' or 'regression'"), []) ∧
  SVMModel.construct (P:=ascii_python) (L:=toy) (VStr "invalid") {[ "num_leaves" := VInt 7 ]} [] =
    (Raise (ValueError "Task must be 'classification' or 'regression'"), []).
Proof.
  apply (C3_unrecognized_task_raises_ValueError (P:=ascii_python) (L:=toy) "invalid"); reflexivity.
Defined.

(** C3 as stated fails: "Classification" is neither of the two recognized
    strings, and both constructors accept it, because the task is compared
    after [str.lower]. *)
Lemma C3_counterexample_capitalized_task :
  String.eqb "Classification" "classification" = false ∧
  String.eqb "Classification" "regression" = false ∧
  LightGBM.construct (P:=ascii_python) (L:=toy) (VStr "Classification") ∅ [] =
    (Ok (LightGBM.Object (Some (VStr "classification")) (Some ∅) (Some 0)),
     [Estimator LGBMClassifier (list_to_map LightGBM.defaults) None]) ∧
  SVMModel.construct (P:=ascii_python) (L:=toy) (VStr "Classification") ∅ [] =
    (Ok (SVMModel.Object (Some (VStr "classification")) (Some ∅) (Some 0)),
     [Estimator SVC (list_to_map SVMModel.defaults_classification) None]).
Proof. split_and!; by vm_compute. Qed.

(** ** fit *)

(** C2, as amended: [LightGBM.fit] takes the two optional arguments and
    hands them to the estimator's [fit], with [verbose=False], when both
    are given and true as [if] tests them (a non-empty evaluation set, a
    non-zero number of rounds); when one is missing, empty or zero, it
    calls the estimator's [fit] with the training data only.
    [SVMModel.fit] has no optional argument: it calls the estimator's
    [fit] with the training data only, and a call that gives one is
    refused with [TypeError] before the estimator is touched. *)
Theorem C2_fit_early_stopping `{L : Library} (X : features) (y : targets) (h : heap) (l : loc) :
  (∀ o, LightGBM.self_model o = Some l →
     (∀ e es r, r ≠ 0%Z →
        LightGBM.fit X y (Some (e :: es)) (Some r) (o, h) =
        let '(res, h') := heap_fit l X y (Some (FitKwargs (e :: es) r false)) h in
        (res, (o, h'))) ∧
     (∀ es r, es = None ∨ es = Some [] ∨ r = None ∨ r = Some 0%Z →
        LightGBM.fit X y es r (o, h) =
        let '(res, h') := heap_fit l X y None h in (res, (o, h')))) ∧
  (∀ o, SVMModel.self_model o = Some l →
     SVMModel.fit_with_keywords X y None None (o, h) =
       (let '(res, h') := heap_fit l X y None h in (res, (o, h'))) ∧
     (∀ es r, is_Some es ∨ is_Some r →
        SVMModel.fit_with_keywords X y es r (o, h) =
        (Raise (TypeError "fit() got an unexpected keyword argument"), (o, h)))).
Proof.
  split; intros o Hm.
  - split.
    + intros e es r Hr. rewrite (lgbm_fit_eq _ _ _ _ _ _ l Hm). simpl.
      by destruct (Z.eqb_spec r 0).
    + intros es r Hcase. rewrite (lgbm_fit_eq _ _ _ _ _ _ l Hm).
      replace (truthy_list es && truthy_int r) with false; [done|].
      destruct Hcase as [-> | [-> | [-> | ->]]]; simpl; try done.
      * by destruct (truthy_list es).
      * by destruct (truthy_list es).
  - split.
    + simpl. by apply svm_fit_eq.
    + intros es r [[? ->]|[? ->]]; [done|]. by destruct es.
Qed.

Lemma C2_witness_toy :
  let X := [1%Q; 0%Q] in
  let y := [1%Q; 1%Q] in
  let lgbm := LightGBM.Object (Some (VStr "classification")) (Some ∅) (Some 0) in
  let h := [Estimator (L:=toy) LGBMClassifier (list_to_map LightGBM.defaults) None] in
  LightGBM.fit (L:=toy) X y (Some [(X, y)]) (Some 10%Z) (lgbm, h) =
    (Ok (), (lgbm, [Estimator (L:=toy) LGBMClassifier (list_to_map LightGBM.defaults)
                      (Some (y, true))])).
Proof.
  intros X y lgbm h.
  destruct (C2_fit_early_stopping (L:=toy) X y h 0) as [Hlgbm _].
  destruct (Hlgbm lgbm) as [Hboth _]; [reflexivity|].
  refine (eq_trans (Hboth (X, y) [] 10%Z _) _); [lia|reflexivity].
Defined.

(** C2 as stated fails on both wrappers.  [SVMModel.fit] refuses the two
    optional arguments and leaves the estimator unfitted; [LightGBM.fit]
    given an evaluation set and [early_stopping_rounds=0] does the plain
    fit (the toy estimator records [false]: no early-stopping argument
    arrived). *)
Lemma C2_counterexample_fit :
  let X := [1%Q; 0%Q] in
  let y := [1%Q; 1%Q] in
  let svm := SVMModel.Object (Some (VStr "classification")) (Some ∅) (Some 0) in
  let hs := [Estimator (L:=toy) SVC (list_to_map SVMModel.defaults_classification) None] in
  let lgbm := LightGBM.Object (Some (VStr "classification")) (Some ∅) (Some 0) in
  let hl := [Estimator (L:=toy) LGBMClassifier (list_to_map LightGBM.defaults) None] in
  SVMModel.construct (P:=ascii_python) (L:=toy) (VStr "classification") ∅ [] = (Ok svm, hs) ∧
  SVMModel.fit_with_keywords (L:=toy) X y (Some [(X, y)]) (Some 10%Z) (svm, hs) =
    (Raise (TypeError "fit() got an unexpected keyword argument"), (svm, hs)) ∧
  LightGBM.construct (P:=ascii_python) (L:=toy) (VStr "classification") ∅ [] = (Ok lgbm, hl) ∧
  LightGBM.fit (L:=toy) X y (Some [(X, y)]) (Some 0%Z) (lgbm, hl) =
    (Ok (), (lgbm, [Estimator (L:=toy) LGBMClassifier (list_to_map LightGBM.defaults)
                      (Some (y, false))])).
Proof. split_and!; by vm_compute. Qed.

(** ** predict_proba *)

Section predict_proba_facts.
Context `{P : Python} `{L : Library}.

Lemma heap_predict_proba_eq l X (h : heap) e :
  h !! l = Some e →
  heap_predict_proba l X h =
  (if lib_has_predict_proba (est_kind e) (est_kwargs e) then
     match lib_predict_proba (est_kind e) (est_kwargs e) (est_learned e) X with
     | inl err => Raise err
     | inr p => Ok p
     end
   else Raise (AttributeError "object has no attribute 'predict_proba'"), h).
Proof.
  intros He. unfold heap_predict_proba. rewrite He.
  destruct (lib_has_predict_proba _ _); [|done]. by destruct (lib_predict_proba _ _ _ _).
Qed.

Lemma lgbm_predict_proba_other_task X o h t :
  LightGBM.self_task o = Some t → value_eq_str t "classification" = false →
  LightGBM.predict_proba X (o, h) =
  (Raise (AttributeError "predict_proba is only available for classification tasks"), (o, h)).
Proof. intros Ht Hne. by rewrite (lgbm_predict_proba_eq _ _ _ t Ht), Hne. Qed.

Lemma svm_predict_proba_other_task X o h t :
  SVMModel.self_task o = Some t → value_eq_str t "classification" = false →
  SVMModel.predict_proba X (o, h) =
  (Raise (AttributeError "Probability prediction is only available for classification tasks."),
   (o, h)).
Proof. intros Ht Hne. unfold SVMModel.predict_proba. run. by rewrite Ht, Hne. Qed.

End predict_proba_facts.

(** C4, as amended: on an object whose estimator exists, [predict_proba]
    raises [AttributeError] whenever the stored task is not
    "classification" (it is "regression", or a value that a failed
    [set_params] left behind) or the estimator has no [predict_proba], and
    the estimator is not consulted.  Otherwise it returns what the
    estimator's [predict_proba] returns, or passes on unchanged what that
    raises, which can be an [AttributeError] too: the library's not-fitted
    error is one.  So [AttributeError] is what the first case gives, not
    what only the first case gives. *)
Theorem C4_predict_proba_support `{L : Library} (X : features) (h : heap)
    (t : value) (l : loc) (e : estimator) :
  h !! l = Some e →
  let supported := value_eq_str t "classification" &&
                   lib_has_predict_proba (est_kind e) (est_kwargs e) in
  let delegate :=
    match lib_predict_proba (est_kind e) (est_kwargs e) (est_learned e) X with
    | inl err => Raise err
    | inr p => Ok p
    end in
  (∀ o, LightGBM.self_task o = Some t → LightGBM.self_model o = Some l →
     (supported = false →
        is_AttributeError (LightGBM.predict_proba X (o, h)).1 = true ∧
        (LightGBM.predict_proba X (o, h)).2 = (o, h)) ∧
     (value_eq_str t "classification" = false →
        LightGBM.predict_proba X (o, h) =
        (Raise (AttributeError "predict_proba is only available for classification tasks"),
         (o, h))) ∧
     (supported = true → LightGBM.predict_proba X (o, h) = (delegate, (o, h)))) ∧
  (∀ o, SVMModel.self_task o = Some t → SVMModel.self_model o = Some l →
     (supported = false →
        is_AttributeError (SVMModel.predict_proba X (o, h)).1 = true ∧
        SVMModel.predict_proba X (o, h) =
        (Raise (AttributeError
                  "Probability prediction is only available for classification tasks."),
         (o, h))) ∧
     (supported = true → SVMModel.predict_proba X (o, h) = (delegate, (o, h)))).
Proof.
  intros He supported delegate. subst supported delegate. split; intros o Ht Hm.
  - rewrite (lgbm_predict_proba_eq _ _ _ t Ht), Hm, (heap_predict_proba_eq _ _ _ e He).
    destruct (value_eq_str t "classification"); simpl; [|done].
    destruct (lib_has_predict_proba _ _); simpl; [|done].
    by destruct (lib_predict_proba _ _ _ _).
  - rewrite (svm_predict_proba_eq _ _ _ t l e Ht Hm He), (heap_predict_proba_eq _ _ _ e He).
    destruct (value_eq_str t "classification"); simpl; [|done].
    destruct (lib_has_predict_proba _ _); simpl; [|done].
    by destruct (lib_predict_proba _ _ _ _).
Qed.

Lemma C4_witness_fitted_classifier :
  let X := [1%Q; 0%Q] in
  let h := [Estimator (L:=toy) SVC (list_to_map SVMModel.defaults_classification)
              (Some ([1%Q; 1%Q], false))] in
  let o := SVMModel.Object (Some (VStr "classification")) (Some ∅) (Some 0) in
  SVMModel.predict_proba (L:=toy) X (o, h) = (Ok [[0%Q; 1%Q]; [1%Q; 0%Q]], (o, h)).
Proof.
  intros X h o.
  destruct (C4_predict_proba_support (L:=toy) X h (VStr "classification") 0
              (Estimator (L:=toy) SVC (list_to_map SVMModel.defaults_classification)
                 (Some ([1%Q; 1%Q], false)))) as [_ Hsvm]; [reflexivity|].
  destruct (Hsvm o) as [_ Hret]; [reflexivity|reflexivity|].
  refine (eq_trans (Hret _) _); reflexivity.
Defined.

(** C4 as stated fails in its "exactly when", twice.  After a [set_params]
    that was refused for its task, the stored task is "invalid", which is
    not "regression", and the estimator is still the classifier, which has
    [predict_proba]; yet [predict_proba] raises [AttributeError].  And on a
    classification object just built, whose classifier has
    [predict_proba], the call reaches the estimator, which is not fitted
    and raises its not-fitted error, an [AttributeError]. *)
Lemma C4_counterexample_rejected_task :
  let X := [1%Q; 0%Q] in
  let o := LightGBM.Object (Some (VStr "classification")) (Some ∅) (Some 0) in
  let h := [Estimator (L:=toy) LGBMClassifier (list_to_map LightGBM.defaults) None] in
  let o' := LightGBM.Object (Some (VStr "invalid")) (Some ∅) (Some 0) in
  LightGBM.construct (P:=ascii_python) (L:=toy) (VStr "classification") ∅ [] = (Ok o, h) ∧
  LightGBM.set_params (P:=ascii_python) (L:=toy) {[ "task" := VStr "invalid" ]} (o, h) =
    (Raise (ValueError "Task must be 'classification' or 'regression'"), (o', h)) ∧
  value_eq_str (VStr "invalid") "regression" = false ∧
  lib_has_predict_proba (Library:=toy) LGBMClassifier (list_to_map LightGBM.defaults) = true ∧
  LightGBM.predict_proba (L:=toy) X (o', h) =
    (Raise (AttributeError "predict_proba is only available for classification tasks"),
     (o', h)) ∧
  value_eq_str (VStr "classification") "regression" = false ∧
  LightGBM.predict_proba (L:=toy) X (o, h) = (Raise (AttributeError "NotFittedError"), (o, h)).
Proof. split_and!; by vm_compute. Qed.

(** ** set_params *)

Section set_params_facts.
Context `{P : Python} `{L : Library}.

(** Without the dictionary attribute [set_params] cannot return. *)
Lemma lgbm_set_params_loop_None (params : kwargs) o h a st :
  LightGBM.self_lgbm_params o = None →
  map_fold (λ param v rest, _ ← LightGBM.set_param param v; rest) (mret ()) params (o, h)
    = (Ok a, st) →
  LightGBM.self_lgbm_params st.1 = None.
Proof.
  revert o a st.
  apply (map_fold_weak_ind (λ (r : M (LightGBM.object * heap) ()) (m : kwargs),
    ∀ o a st, LightGBM.self_lgbm_params o = None → r (o, h) = (Ok a, st) →
      LightGBM.self_lgbm_params st.1 = None)).
  - intros o a st Hp. run. by intros [= _ <-].
  - intros i x m r _ IH o a st Hp. unfold LightGBM.set_param.
    destruct (String.eqb i "task").
    + run. apply IH. by destruct o.
    + run. by rewrite Hp.
Qed.

Lemma lgbm_set_params_Ok_has_params (params : kwargs) o h st :
  LightGBM.set_params params (o, h) = (Ok (), st) →
  is_Some (LightGBM.self_lgbm_params o).
Proof.
  destruct (LightGBM.self_lgbm_params o) as [old|] eqn:Hp; [by eexists|].
  unfold LightGBM.set_params. unfold mbind at 1, M_bind at 1.
  match goal with
  | |- context [map_fold ?f ?b params (o, h)] =>
      destruct (map_fold f b params (o, h)) as [[[]|e] [o1 h1]] eqn:Hloop; [|done]
  end.
  apply lgbm_set_params_loop_None in Hloop; [|done]. simpl in Hloop.
  run. destruct (LightGBM.self_task o1); simpl; [rewrite Hloop|]; done.
Qed.

Lemma svm_set_params_loop_None (params : kwargs) o h a st :
  SVMModel.self_svm_params o = None →
  map_fold (λ param v rest, _ ← SVMModel.set_param param v; rest) (mret ()) params (o, h)
    = (Ok a, st) →
  SVMModel.self_svm_params st.1 = None.
Proof.
  revert o a st.
  apply (map_fold_weak_ind (λ (r : M (SVMModel.object * heap) ()) (m : kwargs),
    ∀ o a st, SVMModel.self_svm_params o = None → r (o, h) = (Ok a, st) →
      SVMModel.self_svm_params st.1 = None)).
  - intros o a st Hp. run. by intros [= _ <-].
  - intros i x m r _ IH o a st Hp. unfold SVMModel.set_param.
    destruct (String.eqb i "task").
    + run. apply IH. by destruct o.
    + run. by rewrite Hp.
Qed.

Lemma svm_set_params_Ok_has_params (params : kwargs) o h st :
  SVMModel.set_params params (o, h) = (Ok (), st) →
  is_Some (SVMModel.self_svm_params o).
Proof.
  destruct (SVMModel.self_svm_params o) as [old|] eqn:Hp; [by eexists|].
  unfold SVMModel.set_params. unfold mbind at 1, M_bind at 1.
  match goal with
  | |- context [map_fold ?f ?b params (o, h)] =>
      destruct (map_fold f b params (o, h)) as [[[]|e] [o1 h1]] eqn:Hloop; [|done]
  end.
  apply svm_set_params_loop_None in Hloop; [|done]. simpl in Hloop.
  run. destruct (SVMModel.self_task o1); simpl; [rewrite Hloop|]; done.
Qed.

(** A successful [set_params], in full. *)
Lemma lgbm_set_params_Ok (params : kwargs) o h o' h' :
  LightGBM.set_params params (o, h) = (Ok (), (o', h')) →
  ∃ old s k,
    LightGBM.self_lgbm_params o = Some old ∧
    match params !! "task" with Some v => Some v | None => LightGBM.self_task o end
      = Some (VStr s) ∧
    LightGBM.estimator_class (str_lower s) = Some k ∧
    keyword_clash LightGBM.defaults (delete "task" params ∪ old) = false ∧
    o' = LightGBM.Object (Some (VStr (str_lower s))) (Some (delete "task" params ∪ old))
           (Some (length h)) ∧
    h' = h ++ [Estimator k ((delete "task" params ∪ old) ∪ list_to_map LightGBM.defaults) None].
Proof.
  intros Hok. destruct (lgbm_set_params_Ok_has_params _ _ _ _ Hok) as [old Hold].
  exists old.
  destruct (match params !! "task" with Some v => Some v | None => LightGBM.self_task o end)
    as [t|] eqn:Ht.
  - rewrite (lgbm_set_params_eq _ _ _ old t Hold Ht) in Hok.
    destruct t as [| | | |s]; try done.
    rewrite lgbm_init_eq in Hok. simpl in Hok. exists s.
    destruct (LightGBM.estimator_class (str_lower s)) as [k|]; [|done]. exists k.
    destruct (new_with_keywords _ _ _ _) as [[l|e] h1] eqn:Hnew; [|done].
    apply new_with_keywords_Ok in Hnew as (Hc & _ & -> & ->).
    by injection Hok as <- <-.
  - unfold LightGBM.set_params in Hok. unfold mbind at 1, M_bind at 1 in Hok.
    rewrite (lgbm_set_params_loop _ _ _ old Hold), Ht in Hok. by run.
Qed.

Lemma svm_set_params_Ok (params : kwargs) o h o' h' :
  SVMModel.set_params params (o, h) = (Ok (), (o', h')) →
  ∃ old s k explicit,
    SVMModel.self_svm_params o = Some old ∧
    match params !! "task" with Some v => Some v | None => SVMModel.self_task o end
      = Some (VStr s) ∧
    SVMModel.estimator_class (str_lower s) = Some (k, explicit) ∧
    keyword_clash explicit (delete "task" params ∪ old) = false ∧
    o' = SVMModel.Object (Some (VStr (str_lower s))) (Some (delete "task" params ∪ old))
           (Some (length h)) ∧
    h' = h ++ [Estimator k ((delete "task" params ∪ old) ∪ list_to_map explicit) None].
Proof.
  intros Hok. destruct (svm_set_params_Ok_has_params _ _ _ _ Hok) as [old Hold].
  exists old.
  destruct (match params !! "task" with Some v => Some v | None => SVMModel.self_task o end)
    as [t|] eqn:Ht.
  - rewrite (svm_set_params_eq _ _ _ old t Hold Ht) in Hok.
    destruct t as [| | | |s]; try done.
    rewrite svm_init_eq in Hok. simpl in Hok. exists s.
    destruct (SVMModel.estimator_class (str_lower s)) as [[k explicit]|]; [|done].
    exists k, explicit.
    destruct (new_with_keywords _ _ _ _) as [[l|e] h1] eqn:Hnew; [|done].
    apply new_with_keywords_Ok in Hnew as (Hc & _ & -> & ->).
    by injection Hok as <- <-.
  - unfold SVMModel.set_params in Hok. unfold mbind at 1, M_bind at 1 in Hok.
    rewrite (svm_set_params_loop _ _ _ old Hold), Ht in Hok. by run.
Qed.

End set_params_facts.

(** C9: after a [set_params] that returned, the object's estimator is a new
    object, unfitted, of the class of the task and built from the defaults
    plus the merged dictionary (the new entries over the old ones); it sits
    at a reference that no estimator had before, and every estimator that
    existed before, the previous delegate and what it had learned included,
    is in the store unchanged.  This holds for every [params], the empty
    one included. *)
Theorem C9_set_params_rebuilds_the_estimator `{P : Python} `{L : Library}
    (params : kwargs) (h h' : heap) :
  (∀ o o', LightGBM.set_params params (o, h) = (Ok (), (o', h')) →
     ∃ old s k e,
       LightGBM.self_lgbm_params o = Some old ∧
       LightGBM.self_lgbm_params o' = Some (delete "task" params ∪ old) ∧
       LightGBM.self_task o' = Some (VStr (str_lower s)) ∧
       LightGBM.estimator_class (str_lower s) = Some k ∧
       e = Estimator k ((delete "task" params ∪ old) ∪ list_to_map LightGBM.defaults) None ∧
       unfitted e ∧
       LightGBM.self_model o' = Some (length h) ∧
       h !! length h = None ∧
       h' = h ++ [e] ∧
       ∀ l e0, h !! l = Some e0 → h' !! l = Some e0 ∧ LightGBM.self_model o' ≠ Some l) ∧
  (∀ o o', SVMModel.set_params params (o, h) = (Ok (), (o', h')) →
     ∃ old s k explicit e,
       SVMModel.self_svm_params o = Some old ∧
       SVMModel.self_svm_params o' = Some (delete "task" params ∪ old) ∧
       SVMModel.self_task o' = Some (VStr (str_lower s)) ∧
       SVMModel.estimator_class (str_lower s) = Some (k, explicit) ∧
       e = Estimator k ((delete "task" params ∪ old) ∪ list_to_map explicit) None ∧
       unfitted e ∧
       SVMModel.self_model o' = Some (length h) ∧
       h !! length h = None ∧
       h' = h ++ [e] ∧
       ∀ l e0, h !! l = Some e0 → h' !! l = Some e0 ∧ SVMModel.self_model o' ≠ Some l).
Proof.
  split; intros o o' Hok.
  - apply lgbm_set_params_Ok in Hok as (old & s & k & Hold & _ & Hk & _ & -> & ->).
    eexists old, s, k, _. split_and!; try done.
    + by apply lookup_ge_None.
    + intros l e0 Hl. simpl.
      destruct (heap_alloc_fresh h (Estimator k
        ((delete "task" params ∪ old) ∪ list_to_map LightGBM.defaults) None))
        as (_ & _ & Hkeep).
      destruct (Hkeep l e0 Hl) as [? ?]. split; [done|congruence].
  - apply svm_set_params_Ok in Hok as (old & s & k & explicit & Hold & _ & Hk & _ & -> & ->).
    eexists old, s, k, explicit, _. split_and!; try done.
    + by apply lookup_ge_None.
    + intros l e0 Hl. simpl.
      destruct (heap_alloc_fresh h (Estimator k
        ((delete "task" params ∪ old) ∪ list_to_map explicit) None))
        as (_ & _ & Hkeep).
      destruct (Hkeep l e0 Hl) as [? ?]. split; [done|congruence].
Qed.

(** A fitted classifier, a [set_params] with no entry at all: the object
    gets a second, unfitted estimator and the fitted one stays in the
    store. *)
Lemma C9_witness_empty_update :
  let fitted := Estimator (L:=toy) LGBMClassifier (list_to_map LightGBM.defaults)
                  (Some ([1%Q; 1%Q], false)) in
  let o := LightGBM.Object (Some (VStr "classification")) (Some ∅) (Some 0) in
  ∃ old s k e,
    LightGBM.self_lgbm_params o = Some old ∧
    LightGBM.self_lgbm_params o = Some (delete "task" ∅ ∪ old) ∧
    LightGBM.self_task (LightGBM.Object (Some (VStr "classification")) (Some ∅) (Some 1))
      = Some (VStr (lower s)) ∧
    LightGBM.estimator_class (lower s) = Some k ∧
    e = Estimator (L:=toy) k ((delete "task" ∅ ∪ old) ∪ list_to_map LightGBM.defaults) None ∧
    unfitted e ∧
    Some 1 = Some (length [fitted]) ∧
    [fitted] !! length [fitted] = None ∧
    [fitted; Estimator (L:=toy) LGBMClassifier (list_to_map LightGBM.defaults) None]
      = [fitted] ++ [e] ∧
    ∀ l e0, [fitted] !! l = Some e0 →
      [fitted; Estimator (L:=toy) LGBMClassifier (list_to_map LightGBM.defaults) None] !! l
        = Some e0 ∧
      Some 1 ≠ Some l.
Proof.
  intros fitted o.
  destruct (C9_set_params_rebuilds_the_estimator (P:=ascii_python) (L:=toy) ∅ [fitted]
    [fitted; Estimator (L:=toy) LGBMClassifier (list_to_map LightGBM.defaults) None])
    as [Hlgbm _].
  apply (Hlgbm o (LightGBM.Object (Some (VStr "classification")) (Some ∅) (Some 1))).
  by vm_compute.
Defined.

(** C10, as amended: a [set_params] whose [task] entry is a string with a
    lower-case form other than the two tasks raises the [ValueError] that
    [construct] raises for that string.  Afterwards the task attribute
    holds the lower-case form of the rejected string, the dictionary holds
    the merge with the other entries of the call, and the estimator
    reference and the store are the ones from before the call. *)
Theorem C10_set_params_invalid_task `{P : Python} `{L : Library}
    (params : kwargs) (s : string) (h : heap) :
  params !! "task" = Some (VStr s) →
  String.eqb (str_lower s) "classification" = false →
  String.eqb (str_lower s) "regression" = false →
  (∀ o old, LightGBM.self_lgbm_params o = Some old →
     LightGBM.set_params params (o, h) =
       (Raise (ValueError "Task must be 'classification' or 'regression'"),
        (LightGBM.Object (Some (VStr (str_lower s))) (Some (delete "task" params ∪ old))
           (LightGBM.self_model o), h)) ∧
     ∀ kw, LightGBM.construct (VStr s) kw h =
       (Raise (ValueError "Task must be 'classification' or 'regression'"), h)) ∧
  (∀ o old, SVMModel.self_svm_params o = Some old →
     SVMModel.set_params params (o, h) =
       (Raise (ValueError "Task must be 'classification' or 'regression'"),
        (SVMModel.Object (Some (VStr (str_lower s))) (Some (delete "task" params ∪ old))
           (SVMModel.self_model o), h)) ∧
     ∀ kw, SVMModel.construct (VStr s) kw h =
       (Raise (ValueError "Task must be 'classification' or 'regression'"), h)).
Proof.
  intros Htask H1 H2. split; intros o old Hold; split.
  - rewrite (lgbm_set_params_eq _ _ _ old (VStr s) Hold) by by rewrite Htask.
    rewrite lgbm_init_eq. simpl. by rewrite lgbm_estimator_class_None.
  - intros kw. by apply lgbm_construct_invalid, lgbm_estimator_class_None.
  - rewrite (svm_set_params_eq _ _ _ old (VStr s) Hold) by by rewrite Htask.
    rewrite svm_init_eq. simpl. by rewrite svm_estimator_class_None.
  - intros kw. by apply svm_construct_invalid, svm_estimator_class_None.
Qed.

Lemma C10_witness_invalid_task :
  let o := SVMModel.Object (Some (VStr "classification")) (Some ∅) (Some 0) in
  let h := [Estimator (L:=toy) SVC (list_to_map SVMModel.defaults_classification) None] in
  SVMModel.set_params (P:=ascii_python) (L:=toy) {[ "task" := VStr "clustering"; "shrinking" := VBool false ]} (o, h) =
    (Raise (ValueError "Task must be 'classification' or 'regression'"),
     (SVMModel.Object (Some (VStr "clustering")) (Some {[ "shrinking" := VBool false ]}) (Some 0), h)).
Proof.
  intros o h.
  destruct (C10_set_params_invalid_task (P:=ascii_python) (L:=toy)
              {[ "task" := VStr "clustering"; "shrinking" := VBool false ]} "clustering" h)
    as [_ Hsvm]; [reflexivity|reflexivity|reflexivity|].
  destruct (Hsvm o ∅) as [Hraise _]; [reflexivity|].
  refine (eq_trans Hraise _). by vm_compute.
Defined.

(** C10 as stated fails in one point: the task attribute does not hold the
    rejected value "INVALID" after the error, it holds "invalid". *)
Lemma C10_counterexample_upper_case :
  let o := LightGBM.Object (Some (VStr "classification")) (Some ∅) (Some 0) in
  let h := [Estimator (L:=toy) LGBMClassifier (list_to_map LightGBM.defaults) None] in
  LightGBM.construct (P:=ascii_python) (L:=toy) (VStr "classification") ∅ [] = (Ok o, h) ∧
  LightGBM.set_params (P:=ascii_python) (L:=toy) {[ "task" := VStr "INVALID" ]} (o, h) =
    (Raise (ValueError "Task must be 'classification' or 'regression'"),
     (LightGBM.Object (Some (VStr "invalid")) (Some ∅) (Some 0), h)) ∧
  Some (VStr "invalid") ≠ Some (VStr "INVALID").
Proof. split_and!; by vm_compute. Qed.

(** C5: on an object that [construct] returned for the task
    "classification", after [set_params(task="regression")] the stored task
    is "regression" and [predict_proba] raises [AttributeError].  The call
    of [set_params] itself returns when the library accepts the keywords
    for the regressor (and, for [SVMModel], the caller's keywords do not
    name the regressor's own default [epsilon]); when it does not return,
    the task has been replaced all the same. *)
Theorem C5_regression_after_set_params `{P : Python} `{L : Library} (kw : kwargs) (h h' : heap) (X : features) :
  (∀ o, LightGBM.construct (VStr "classification") kw h = (Ok o, h') →
     let r := LightGBM.set_params {[ "task" := VStr "regression" ]} (o, h') in
     LightGBM.self_task r.2.1 = Some (VStr "regression") ∧
     is_AttributeError (LightGBM.predict_proba X r.2).1 = true ∧
     (lib_new LGBMRegressor (kw ∪ list_to_map LightGBM.defaults) = None → r.1 = Ok ())) ∧
  (∀ o, SVMModel.construct (VStr "classification") kw h = (Ok o, h') →
     let r := SVMModel.set_params {[ "task" := VStr "regression" ]} (o, h') in
     SVMModel.self_task r.2.1 = Some (VStr "regression") ∧
     is_AttributeError (SVMModel.predict_proba X r.2).1 = true ∧
     (kw !! "epsilon" = None →
      lib_new SVR (kw ∪ list_to_map SVMModel.defaults_regression) = None → r.1 = Ok ())).
Proof.
  assert (delete "task" ({[ "task" := VStr "regression" ]} : kwargs) ∪ kw = kw) as Hmerge.
  { by rewrite delete_singleton_eq, (left_id_L ∅ (∪)). }
  split; intros o Hc.
  - apply lgbm_construct_Ok in Hc as (k & Hk & Hclash & _ & -> & ->).
    intros r. subst r.
    rewrite (lgbm_set_params_eq _ _ _ kw (VStr "regression")) by done.
    rewrite Hmerge, lgbm_init_eq.
    rewrite !str_lower_regression.
    change (LightGBM.estimator_class "regression") with (Some LGBMRegressor).
    unfold new_with_keywords, heap_new. rewrite Hclash.
    destruct (lib_new LGBMRegressor _); cbn [fst snd].
    all: (split; [done|]); (split; [|done]);
      by rewrite (lgbm_predict_proba_other_task _ _ _ (VStr "regression")).
  - apply svm_construct_Ok in Hc as (k & explicit & Hk & Hclash & _ & -> & ->).
    intros r. subst r.
    rewrite (svm_set_params_eq _ _ _ kw (VStr "regression")) by done.
    rewrite Hmerge, svm_init_eq.
    rewrite !str_lower_regression.
    change (SVMModel.estimator_class "regression")
      with (Some (SVR, SVMModel.defaults_regression)).
    rewrite str_lower_classification in Hk.
    change (SVMModel.estimator_class "classification")
      with (Some (SVC, SVMModel.defaults_classification)) in Hk.
    injection Hk as <- <-.
    destruct (new_with_keywords SVR SVMModel.defaults_regression kw _)
      as [[l|e] h1] eqn:Hnew; cbn [fst snd].
    + split; [done|]. split; [|done].
      by rewrite (svm_predict_proba_other_task _ _ _ (VStr "regression")).
    + split; [done|]. split.
      { by rewrite (svm_predict_proba_other_task _ _ _ (VStr "regression")). }
      intros Heps Hlib. exfalso.
      assert (keyword_clash SVMModel.defaults_regression kw = false) as Hno.
      { apply keyword_clash_false. intros name Hin.
        rewrite keyword_clash_false in Hclash.
        cbn in Hin. rewrite !elem_of_cons in Hin.
        destruct Hin as [->|[->|[->|[->|Hin]]]];
          [apply Hclash; cbn; rewrite !elem_of_cons; auto ..|done|by apply elem_of_nil in Hin]. }
      unfold new_with_keywords, heap_new in Hnew. by rewrite Hno, Hlib in Hnew.
Qed.

Lemma C5_witness_classifier_to_regressor :
  let o := SVMModel.Object (Some (VStr "classification"))
             (Some {[ "shrinking" := VBool false ]}) (Some 0) in
  let h := [Estimator (L:=toy) SVC
              ({[ "shrinking" := VBool false ]} ∪ list_to_map SVMModel.defaults_classification)
              None] in
  let r := SVMModel.set_params (P:=ascii_python) (L:=toy) {[ "task" := VStr "regression" ]} (o, h) in
  SVMModel.self_task r.2.1 = Some (VStr "regression") ∧
  is_AttributeError (SVMModel.predict_proba (L:=toy) [1%Q] r.2).1 = true ∧
  r.1 = Ok ().
Proof.
  intros o h.
  destruct (C5_regression_after_set_params (P:=ascii_python) (L:=toy) {[ "shrinking" := VBool false ]} [] h [1%Q])
    as [_ Hsvm].
  destruct (Hsvm o) as (Htask & Hraise & Hret); [by vm_compute|].
  split_and!; [exact Htask|exact Hraise|apply Hret; reflexivity].
Defined.

(** ** get_params *)

(** C6: for an object [construct] returned, [get_params] returns the task
    under the key [task] next to the caller's keywords; calling the
    constructor with that dictionary as keyword arguments returns an object
    again, in any store, and its [get_params] returns the same dictionary.
    The caller's keywords are what Python binds to the double-starred
    parameter, so they have no entry named [task] or [self]. *)
Theorem C6_get_params_round_trip `{P : Python} `{L : Library} (task : value) (kw : kwargs) (h h' h2 : heap) :
  kw !! "task" = None → kw !! "self" = None →
  (∀ o, LightGBM.construct task kw h = (Ok o, h') →
     ∃ g o2 h2',
       LightGBM.get_params (o, h') = (Ok g, (o, h')) ∧
       LightGBM.construct_kwargs g h2 = (Ok o2, h2') ∧
       LightGBM.get_params (o2, h2') = (Ok g, (o2, h2'))) ∧
  (∀ o, SVMModel.construct task kw h = (Ok o, h') →
     ∃ g o2 h2',
       SVMModel.get_params (o, h') = (Ok g, (o, h')) ∧
       SVMModel.construct_kwargs g h2 = (Ok o2, h2') ∧
       SVMModel.get_params (o2, h2') = (Ok g, (o2, h2'))).
Proof.
  intros Htask Hself.
  assert (∀ t : value, (kw ∪ {[ "task" := t ]}) !! "self" = None) as Hgself.
  { intros t. by rewrite lookup_union, Hself, lookup_singleton_ne. }
  assert (∀ t : value, (kw ∪ {[ "task" := t ]}) !! "task" = Some t) as Hgtask.
  { intros t. by rewrite lookup_union, Htask, lookup_singleton_eq. }
  assert (∀ t : value, delete "task" (kw ∪ {[ "task" := t ]}) = kw) as Hgrest.
  { intros t. rewrite delete_union, delete_singleton_eq, (right_id_L ∅ (∪)).
    by apply delete_id. }
  split; intros o Hc.
  - destruct task as [| | | |s]; try done.
    apply lgbm_construct_Ok in Hc as (k & Hk & Hclash & Hlib & -> & ->).
    eexists (kw ∪ {[ "task" := VStr (str_lower s) ]}), _, _. split_and!.
    + by apply lgbm_get_params_eq.
    + unfold LightGBM.construct_kwargs.
      rewrite Hgself, Hgtask, Hgrest. simpl.
      apply lgbm_construct_Ok. exists k.
      rewrite (lgbm_estimator_class_lower _ _ Hk). done.
    + by apply lgbm_get_params_eq.
  - destruct task as [| | | |s]; try done.
    apply svm_construct_Ok in Hc as (k & explicit & Hk & Hclash & Hlib & -> & ->).
    eexists (kw ∪ {[ "task" := VStr (str_lower s) ]}), _, _. split_and!.
    + by apply svm_get_params_eq.
    + unfold SVMModel.construct_kwargs.
      rewrite Hgself, Hgtask, Hgrest. simpl.
      apply svm_construct_Ok. exists k, explicit.
      rewrite (svm_estimator_class_lower _ _ _ Hk). done.
    + by apply svm_get_params_eq.
Qed.

Lemma C6_witness_round_trip :
  let kw : kwargs := {[ "min_child_samples" := VInt 5 ]} in
  let o := LightGBM.Object (Some (VStr "regression")) (Some kw) (Some 0) in
  let h' := [Estimator (L:=toy) LGBMRegressor (kw ∪ list_to_map LightGBM.defaults) None] in
  ∃ g o2 h2',
    LightGBM.get_params (L:=toy) (o, h') = (Ok g, (o, h')) ∧
    LightGBM.construct_kwargs (P:=ascii_python) (L:=toy) g h' = (Ok o2, h2') ∧
    LightGBM.get_params (L:=toy) (o2, h2') = (Ok g, (o2, h2')).
Proof.
  intros kw o h'.
  destruct (C6_get_params_round_trip (P:=ascii_python) (L:=toy) (VStr "Regression") kw [] h' h')
    as [Hlgbm _]; [reflexivity|reflexivity|].
  apply Hlgbm. by vm_compute.
Defined.

(** ** evaluate *)

(** C7: on an object whose task is "classification", when [predict]
    returns one prediction for each of the labels and there is at least
    one label, [evaluate] returns the accuracy of the predictions against
    the labels, a number between 0 and 1; the object and the store are
    untouched. *)
Theorem C7_evaluate_classification `{L : Library}
    (X : features) (y y_pred : targets) (h : heap) :
  y ≠ [] → length y_pred = length y →
  (∀ o, LightGBM.self_task o = Some (VStr "classification") →
     (LightGBM.predict X (o, h)).1 = Ok y_pred →
     ∃ acc, LightGBM.evaluate X y (o, h) = (Ok (Some acc), (o, h)) ∧
            accuracy_score y y_pred = Ok acc ∧ (0 <= acc <= 1)%Q) ∧
  (∀ o, SVMModel.self_task o = Some (VStr "classification") →
     (SVMModel.predict X (o, h)).1 = Ok y_pred →
     ∃ acc, SVMModel.evaluate X y (o, h) = (Ok (Some acc), (o, h)) ∧
            accuracy_score y y_pred = Ok acc ∧ (0 <= acc <= 1)%Q).
Proof.
  intros Hne Hlen.
  pose proof (accuracy_score_Ok y y_pred Hlen Hne) as Hacc.
  split; intros o Ht Hp; eexists; (split; [|split; [exact Hacc|]]).
  - by rewrite (lgbm_evaluate_eq _ _ _ _ _ Hp), Ht, Hacc.
  - by apply (accuracy_score_bounds y y_pred).
  - by rewrite (svm_evaluate_eq _ _ _ _ _ Hp), Ht, Hacc.
  - by apply (accuracy_score_bounds y y_pred).
Qed.

Lemma C7_witness_half_right :
  let o := LightGBM.Object (Some (VStr "classification")) (Some ∅) (Some 0) in
  let h := [Estimator (L:=toy) LGBMClassifier (list_to_map LightGBM.defaults)
              (Some ([1%Q; 1%Q], false))] in
  ∃ acc, LightGBM.evaluate (L:=toy) [1%Q; 0%Q] [1%Q; 1%Q] (o, h) = (Ok (Some acc), (o, h)) ∧
         accuracy_score [1%Q; 1%Q] [1%Q; 0%Q] = Ok acc ∧ (0 <= acc <= 1)%Q.
Proof.
  intros o h.
  destruct (C7_evaluate_classification (L:=toy) [1%Q; 0%Q] [1%Q; 1%Q] [1%Q; 0%Q] h)
    as [Hlgbm _]; [discriminate|reflexivity|].
  apply Hlgbm; reflexivity.
Defined.

(** C8: on an object whose task is "regression", when [predict] returns
    one prediction for each of the targets and there is at least one
    target, [evaluate] returns the mean squared error of the predictions
    against the targets, a number that is not negative; the object and the
    store are untouched. *)
Theorem C8_evaluate_regression `{L : Library}
    (X : features) (y y_pred : targets) (h : heap) :
  y ≠ [] → length y_pred = length y →
  (∀ o, LightGBM.self_task o = Some (VStr "regression") →
     (LightGBM.predict X (o, h)).1 = Ok y_pred →
     ∃ mse, LightGBM.evaluate X y (o, h) = (Ok (Some mse), (o, h)) ∧
            mean_squared_error y y_pred = Ok mse ∧ (0 <= mse)%Q) ∧
  (∀ o, SVMModel.self_task o = Some (VStr "regression") →
     (SVMModel.predict X (o, h)).1 = Ok y_pred →
     ∃ mse, SVMModel.evaluate X y (o, h) = (Ok (Some mse), (o, h)) ∧
            mean_squared_error y y_pred = Ok mse ∧ (0 <= mse)%Q).
Proof.
  intros Hne Hlen.
  pose proof (mean_squared_error_Ok y y_pred Hlen Hne) as Hmse.
  split; intros o Ht Hp; eexists; (split; [|split; [exact Hmse|]]).
  - by rewrite (lgbm_evaluate_eq _ _ _ _ _ Hp), Ht, Hmse.
  - by apply (mean_squared_error_nonneg y y_pred).
  - by rewrite (svm_evaluate_eq _ _ _ _ _ Hp), Ht, Hmse.
  - by apply (mean_squared_error_nonneg y y_pred).
Qed.

Lemma C8_witness_squared_error :
  let o := SVMModel.Object (Some (VStr "regression")) (Some ∅) (Some 0) in
  let h := [Estimator (L:=toy) SVR (list_to_map SVMModel.defaults_regression)
              (Some ([3%Q; 1%Q], false))] in
  ∃ mse, SVMModel.evaluate (L:=toy) [1%Q; 0%Q] [3%Q; 1%Q] (o, h) = (Ok (Some mse), (o, h)) ∧
         mean_squared_error [3%Q; 1%Q] [1%Q; 0%Q] = Ok mse ∧ (0 <= mse)%Q.
Proof.
  intros o h.
  destruct (C8_evaluate_regression (L:=toy) [1%Q; 0%Q] [3%Q; 1%Q] [1%Q; 0%Q] h)
    as [_ Hsvm]; [discriminate|reflexivity|].
  apply Hsvm; reflexivity.
Defined.

(** * Further properties *)

(** ** [set_params] in every outcome *)

Section set_params_outcomes.
Context `{P : Python} `{L : Library}.

(** Every way [set_params] can end, on an object that has its dictionary. *)
Lemma lgbm_set_params_cases (params : kwargs) o h old :
  LightGBM.self_lgbm_params o = Some old →
  let merged := delete "task" params ∪ old in
  LightGBM.set_params params (o, h) =
  match match params !! "task" with Some v => Some v | None => LightGBM.self_task o end with
  | None =>
      (Raise (AttributeError "object has no attribute 'task'"),
       (LightGBM.Object None (Some merged) (LightGBM.self_model o), h))
  | Some (VStr s) =>
      let o1 := LightGBM.Object (Some (VStr (str_lower s))) (Some merged) (LightGBM.self_model o) in
      match LightGBM.estimator_class (str_lower s) with
      | None => (Raise (ValueError "Task must be 'classification' or 'regression'"), (o1, h))
      | Some k =>
          match new_with_keywords k LightGBM.defaults merged h with
          | (Ok l, h') => (Ok (), (LightGBM.set_model l o1, h'))
          | (Raise e, h') => (Raise e, (o1, h'))
          end
      end
  | Some t =>
      (Raise (AttributeError "object has no attribute 'lower'"),
       (LightGBM.Object (Some t) (Some merged) (LightGBM.self_model o), h))
  end.
Proof.
  intros Hold merged. subst merged.
  destruct (match params !! "task" with Some v => Some v | None => LightGBM.self_task o end)
    as [t|] eqn:Ht.
  - rewrite (lgbm_set_params_eq _ _ _ old t Hold Ht).
    destruct t as [| | | |s]; try done. by rewrite lgbm_init_eq.
  - unfold LightGBM.set_params. unfold mbind at 1, M_bind at 1.
    rewrite (lgbm_set_params_loop _ _ _ old Hold), Ht. by run.
Qed.

Lemma svm_set_params_cases (params : kwargs) o h old :
  SVMModel.self_svm_params o = Some old →
  let merged := delete "task" params ∪ old in
  SVMModel.set_params params (o, h) =
  match match params !! "task" with Some v => Some v | None => SVMModel.self_task o end with
  | None =>
      (Raise (AttributeError "object has no attribute 'task'"),
       (SVMModel.Object None (Some merged) (SVMModel.self_model o), h))
  | Some (VStr s) =>
      let o1 := SVMModel.Object (Some (VStr (str_lower s))) (Some merged) (SVMModel.self_model o) in
      match SVMModel.estimator_class (str_lower s) with
      | None => (Raise (ValueError "Task must be 'classification' or 'regression'"), (o1, h))
      | Some (k, explicit) =>
          match new_with_keywords k explicit merged h with
          | (Ok l, h') => (Ok (), (SVMModel.set_model l o1, h'))
          | (Raise e, h') => (Raise e, (o1, h'))
          end
      end
  | Some t =>
      (Raise (AttributeError "object has no attribute 'lower'"),
       (SVMModel.Object (Some t) (Some merged) (SVMModel.self_model o), h))
  end.
Proof.
  intros Hold merged. subst merged.
  destruct (match params !! "task" with Some v => Some v | None => SVMModel.self_task o end)
    as [t|] eqn:Ht.
  - rewrite (svm_set_params_eq _ _ _ old t Hold Ht).
    destruct t as [| | | |s]; try done. by rewrite svm_init_eq.
  - unfold SVMModel.set_params. unfold mbind at 1, M_bind at 1.
    rewrite (svm_set_params_loop _ _ _ old Hold), Ht. by run.
Qed.

(** In every outcome the dictionary is the merge afterwards, and an
    outcome other than a return leaves the estimator reference and the
    store alone. *)
Lemma lgbm_set_params_frame (params : kwargs) o h old r o' h' :
  LightGBM.self_lgbm_params o = Some old →
  LightGBM.set_params params (o, h) = (r, (o', h')) →
  LightGBM.self_lgbm_params o' = Some (delete "task" params ∪ old) ∧
  (r ≠ Ok () → h' = h ∧ LightGBM.self_model o' = LightGBM.self_model o).
Proof.
  intros Hold. rewrite (lgbm_set_params_cases _ _ _ old Hold). cbv zeta.
  destruct (match params !! "task" with Some v => Some v | None => LightGBM.self_task o end)
    as [[| | | |s]|]; try by intros [= <- <- <-].
  destruct (LightGBM.estimator_class (str_lower s)) as [k|]; [|by intros [= <- <- <-]].
  destruct (new_with_keywords _ _ _ _) as [[l|e] h1] eqn:Hnew.
  - by intros [= <- <- <-].
  - apply new_with_keywords_Raise in Hnew as ->. by intros [= <- <- <-].
Qed.

Lemma svm_set_params_frame (params : kwargs) o h old r o' h' :
  SVMModel.self_svm_params o = Some old →
  SVMModel.set_params params (o, h) = (r, (o', h')) →
  SVMModel.self_svm_params o' = Some (delete "task" params ∪ old) ∧
  (r ≠ Ok () → h' = h ∧ SVMModel.self_model o' = SVMModel.self_model o).
Proof.
  intros Hold. rewrite (svm_set_params_cases _ _ _ old Hold). cbv zeta.
  destruct (match params !! "task" with Some v => Some v | None => SVMModel.self_task o end)
    as [[| | | |s]|]; try by intros [= <- <- <-].
  destruct (SVMModel.estimator_class (str_lower s)) as [[k explicit]|]; [|by intros [= <- <- <-]].
  destruct (new_with_keywords _ _ _ _) as [[l|e] h1] eqn:Hnew.
  - by intros [= <- <- <-].
  - apply new_with_keywords_Raise in Hnew as ->. by intros [= <- <- <-].
Qed.

End set_params_outcomes.

(** ** Construction, in full *)

(** X1: [construct] returns exactly when the task is a string whose
    lower-case form is one of the two tasks, the caller's keywords name
    none of the keywords written out in the constructor call, and the
    library's constructor accepts the keywords.  The object then stores the
    lower-case task and the caller's keywords, and refers to one new,
    unfitted estimator of the class of the task that was given the caller's
    keywords and the written-out ones. *)
Theorem X1_construct_returns_iff `{P : Python} `{L : Library} (task : value) (kw : kwargs) (h h' : heap) :
  (∀ o, LightGBM.construct task kw h = (Ok o, h') ↔
     ∃ s k, task = VStr s ∧
       LightGBM.estimator_class (str_lower s) = Some k ∧
       (∀ name, name ∈ LightGBM.defaults.*1 → kw !! name = None) ∧
       lib_new k (kw ∪ list_to_map LightGBM.defaults) = None ∧
       o = LightGBM.Object (Some (VStr (str_lower s))) (Some kw) (Some (length h)) ∧
       h' = h ++ [Estimator k (kw ∪ list_to_map LightGBM.defaults) None]) ∧
  (∀ o, SVMModel.construct task kw h = (Ok o, h') ↔
     ∃ s k explicit, task = VStr s ∧
       SVMModel.estimator_class (str_lower s) = Some (k, explicit) ∧
       (∀ name, name ∈ explicit.*1 → kw !! name = None) ∧
       lib_new k (kw ∪ list_to_map explicit) = None ∧
       o = SVMModel.Object (Some (VStr (str_lower s))) (Some kw) (Some (length h)) ∧
       h' = h ++ [Estimator k (kw ∪ list_to_map explicit) None]).
Proof.
  split; intros o.
  - destruct task as [| | | |s]; try (split; [done|by intros (? & ? & ? & _)]).
    rewrite lgbm_construct_Ok. split.
    + intros (k & Hk & Hc & Hrest). exists s, k.
      split_and!; [done|done|by apply keyword_clash_false|apply Hrest..].
    + intros (s' & k & [= <-] & Hk & Hc & Hrest). exists k.
      split_and!; [done|by apply keyword_clash_false|apply Hrest..].
  - destruct task as [| | | |s]; try (split; [done|by intros (? & ? & ? & ? & _)]).
    rewrite svm_construct_Ok. split.
    + intros (k & ex & Hk & Hc & Hrest). exists s, k, ex.
      split_and!; [done|done|by apply keyword_clash_false|apply Hrest..].
    + intros (s' & k & ex & [= <-] & Hk & Hc & Hrest). exists k, ex.
      split_and!; [done|by apply keyword_clash_false|apply Hrest..].
Qed.

Lemma X1_witness_regressor :
  let kw : kwargs := {[ "shrinking" := VBool false ]} in
  ∃ s k explicit, VStr "Regression" = VStr s ∧
    SVMModel.estimator_class (lower s) = Some (k, explicit) ∧
    (∀ name, name ∈ explicit.*1 → kw !! name = None) ∧
    lib_new (Library:=toy) k (kw ∪ list_to_map explicit) = None ∧
    SVMModel.Object (Some (VStr "regression")) (Some kw) (Some 0)
      = SVMModel.Object (Some (VStr (lower s))) (Some kw) (Some 0) ∧
    [Estimator (L:=toy) SVR (kw ∪ list_to_map SVMModel.defaults_regression) None]
      = [Estimator (L:=toy) k (kw ∪ list_to_map explicit) None].
Proof.
  intros kw.
  destruct (X1_construct_returns_iff (P:=ascii_python) (L:=toy) (VStr "Regression") kw []
              [Estimator (L:=toy) SVR (kw ∪ list_to_map SVMModel.defaults_regression) None])
    as [_ Hsvm].
  apply (Hsvm (SVMModel.Object (Some (VStr "regression")) (Some kw) (Some 0))).
  by vm_compute.
Defined.

(** X2: a construction that raises, for whatever reason, leaves the store
    of estimators as it was: no estimator is created and none is
    touched. *)
Theorem X2_failed_construct_keeps_store `{P : Python} `{L : Library}
    (task : value) (kw : kwargs) (h h' : heap) (e : exn) :
  (LightGBM.construct task kw h = (Raise e, h') → h' = h) ∧
  (SVMModel.construct task kw h = (Raise e, h') → h' = h).
Proof.
  split.
  - destruct task as [| | | |s]; try by intros [= _ <-].
    rewrite lgbm_construct_eq.
    destruct (LightGBM.estimator_class (str_lower s)); [|by intros [= _ <-]].
    destruct (new_with_keywords _ _ _ _) as [[l|e1] h1] eqn:Hnew; [done|].
    apply new_with_keywords_Raise in Hnew as ->. by intros [= _ <-].
  - destruct task as [| | | |s]; try by intros [= _ <-].
    rewrite svm_construct_eq.
    destruct (SVMModel.estimator_class (str_lower s)) as [[k ex]|]; [|by intros [= _ <-]].
    destruct (new_with_keywords _ _ _ _) as [[l|e1] h1] eqn:Hnew; [done|].
    apply new_with_keywords_Raise in Hnew as ->. by intros [= _ <-].
Qed.

Lemma X2_witness_clash :
  let h := [Estimator (L:=toy) LGBMClassifier (list_to_map LightGBM.defaults)
              (Some ([1%Q], false))] in
  (LightGBM.construct (P:=ascii_python) (L:=toy) (VStr "regression") {[ "num_leaves" := VInt 7 ]} h).2 = h.
Proof.
  intros h.
  apply (proj1 (X2_failed_construct_keeps_store (P:=ascii_python) (L:=toy) (VStr "regression")
                  {[ "num_leaves" := VInt 7 ]} h _
                  (TypeError "got multiple values for keyword argument"))).
  by vm_compute.
Defined.

(** X3: a task that is not a string (a number, [None], a boolean) is
    refused with [AttributeError], raised by [task.lower()], not with the
    [ValueError] of an unknown task.  [construct] then has assigned
    nothing.  [set_params] has by then stored the value as it is and merged
    the other entries, and keeps the estimator it had. *)
Theorem X3_task_not_a_string `{P : Python} `{L : Library} (task : value) (h : heap) :
  (∀ s, task ≠ VStr s) →
  (∀ kw, LightGBM.construct task kw h =
           (Raise (AttributeError "object has no attribute 'lower'"), h)) ∧
  (∀ kw, SVMModel.construct task kw h =
           (Raise (AttributeError "object has no attribute 'lower'"), h)) ∧
  (∀ params o old, params !! "task" = Some task →
     LightGBM.self_lgbm_params o = Some old →
     LightGBM.set_params params (o, h) =
       (Raise (AttributeError "object has no attribute 'lower'"),
        (LightGBM.Object (Some task) (Some (delete "task" params ∪ old))
           (LightGBM.self_model o), h))) ∧
  (∀ params o old, params !! "task" = Some task →
     SVMModel.self_svm_params o = Some old →
     SVMModel.set_params params (o, h) =
       (Raise (AttributeError "object has no attribute 'lower'"),
        (SVMModel.Object (Some task) (Some (delete "task" params ∪ old))
           (SVMModel.self_model o), h))).
Proof.
  intros Hns. split_and!.
  - intros kw. unfold LightGBM.construct. by rewrite lgbm_init_not_str.
  - intros kw. unfold SVMModel.construct. by rewrite svm_init_not_str.
  - intros params o old Ht Hold.
    rewrite (lgbm_set_params_cases _ _ _ old Hold), Ht. cbv zeta.
    destruct task as [| | | |s]; try done. by destruct (Hns s).
  - intros params o old Ht Hold.
    rewrite (svm_set_params_cases _ _ _ old Hold), Ht. cbv zeta.
    destruct task as [| | | |s]; try done. by destruct (Hns s).
Qed.

Lemma X3_witness_task_number :
  let o := LightGBM.Object (Some (VStr "classification")) (Some ∅) (Some 0) in
  let h := [Estimator (L:=toy) LGBMClassifier (list_to_map LightGBM.defaults) None] in
  LightGBM.set_params (P:=ascii_python) (L:=toy) {[ "task" := VInt 1 ]} (o, h) =
    (Raise (AttributeError "object has no attribute 'lower'"),
     (LightGBM.Object (Some (VInt 1)) (Some ∅) (Some 0), h)).
Proof.
  intros o h.
  destruct (X3_task_not_a_string (P:=ascii_python) (L:=toy) (VInt 1) h) as (_ & _ & Hset & _); [discriminate|].
  refine (eq_trans (Hset {[ "task" := VInt 1 ]} o ∅ _ _) _); by vm_compute.
Defined.

(** X4: the task is read without regard to letter case.  Two task strings
    with the same lower-case form give the same construction, and the same
    [set_params] when one replaces the other as the [task] entry. *)
Theorem X4_task_case_insensitive `{P : Python} `{L : Library} (s1 s2 : string) (h : heap) :
  str_lower s1 = str_lower s2 →
  (∀ kw, LightGBM.construct (VStr s1) kw h = LightGBM.construct (VStr s2) kw h) ∧
  (∀ kw, SVMModel.construct (VStr s1) kw h = SVMModel.construct (VStr s2) kw h) ∧
  (∀ params o, is_Some (LightGBM.self_lgbm_params o) →
     LightGBM.set_params (<["task" := VStr s1]> params) (o, h) =
     LightGBM.set_params (<["task" := VStr s2]> params) (o, h)) ∧
  (∀ params o, is_Some (SVMModel.self_svm_params o) →
     SVMModel.set_params (<["task" := VStr s1]> params) (o, h) =
     SVMModel.set_params (<["task" := VStr s2]> params) (o, h)).
Proof.
  intros Hlow. split_and!.
  - intros kw. by rewrite !lgbm_construct_eq, Hlow.
  - intros kw. by rewrite !svm_construct_eq, Hlow.
  - intros params o [old Hold].
    rewrite !(lgbm_set_params_cases _ _ _ old Hold), !lookup_insert_eq, !delete_insert_eq. cbv zeta.
    by rewrite Hlow.
  - intros params o [old Hold].
    rewrite !(svm_set_params_cases _ _ _ old Hold), !lookup_insert_eq, !delete_insert_eq. cbv zeta.
    by rewrite Hlow.
Qed.

Lemma X4_witness_upper_case :
  LightGBM.construct (P:=ascii_python) (L:=toy) (VStr "REGRESSION") ∅ [] =
  LightGBM.construct (P:=ascii_python) (L:=toy) (VStr "regression") ∅ [].
Proof.
  destruct (X4_task_case_insensitive (P:=ascii_python) (L:=toy) "REGRESSION" "regression" [])
    as (Hc & _); [reflexivity|].
  apply Hc.
Defined.

(** ** [set_params]: what is stored, and when it cannot return *)

Lemma lgbm_defaults_not_task : "task" ∉ LightGBM.defaults.*1.
Proof.
  cbn. intros H. repeat (apply elem_of_cons in H as [H|H]; [discriminate|]).
  by apply elem_of_nil in H.
Qed.

Lemma svm_defaults_classification_not_task : "task" ∉ SVMModel.defaults_classification.*1.
Proof.
  cbn. intros H. repeat (apply elem_of_cons in H as [H|H]; [discriminate|]).
  by apply elem_of_nil in H.
Qed.

Lemma svm_defaults_regression_not_task : "task" ∉ SVMModel.defaults_regression.*1.
Proof.
  cbn. intros H. repeat (apply elem_of_cons in H as [H|H]; [discriminate|]).
  by apply elem_of_nil in H.
Qed.

(** The merge reads the entry of the call first, the old dictionary
    second; the entry [task] of the call never gets into it. *)
Lemma merged_lookup (params old : kwargs) name :
  (delete "task" params ∪ old) !! name =
  if decide (name = "task") then old !! "task"
  else match params !! name with Some v => Some v | None => old !! name end.
Proof.
  rewrite lookup_union. case_decide as Hn.
  - subst name. rewrite lookup_delete_eq. by destruct (old !! "task").
  - rewrite lookup_delete_ne by done. by destruct (params !! name), (old !! name).
Qed.

Lemma merged_clash explicit (params old : kwargs) name :
  "task" ∉ explicit.*1 → name ∈ explicit.*1 →
  is_Some (params !! name) ∨ is_Some (old !! name) →
  keyword_clash explicit (delete "task" params ∪ old) = true.
Proof.
  intros Hnt Hin Hsome. apply keyword_clash_true. exists name. split; [done|].
  rewrite merged_lookup. case_decide as Hn; [by subst name|].
  destruct (params !! name); [by eexists|]. destruct Hsome as [[? [=]]|?]; done.
Qed.

(** X5: whatever way [set_params] ends, the stored dictionary is afterwards
    the entries of the call other than [task] laid over the old dictionary;
    and when it does not return, the estimator reference and the whole
    store of estimators are the ones from before the call: the merge is
    kept, the estimator is not rebuilt. *)
Theorem X5_set_params_merges_in_every_outcome `{P : Python} `{L : Library}
    (params : kwargs) (h h' : heap) (r : result ()) :
  (∀ o o' old, LightGBM.self_lgbm_params o = Some old →
     LightGBM.set_params params (o, h) = (r, (o', h')) →
     ∃ merged, LightGBM.self_lgbm_params o' = Some merged ∧
       (∀ name, name ≠ "task" →
          merged !! name = match params !! name with Some v => Some v | None => old !! name end) ∧
       merged !! "task" = old !! "task" ∧
       (r ≠ Ok () → h' = h ∧ LightGBM.self_model o' = LightGBM.self_model o)) ∧
  (∀ o o' old, SVMModel.self_svm_params o = Some old →
     SVMModel.set_params params (o, h) = (r, (o', h')) →
     ∃ merged, SVMModel.self_svm_params o' = Some merged ∧
       (∀ name, name ≠ "task" →
          merged !! name = match params !! name with Some v => Some v | None => old !! name end) ∧
       merged !! "task" = old !! "task" ∧
       (r ≠ Ok () → h' = h ∧ SVMModel.self_model o' = SVMModel.self_model o)).
Proof.
  split; intros o o' old Hold Hrun.
  - destruct (lgbm_set_params_frame _ _ _ _ _ _ _ Hold Hrun) as [Hm Hfail].
    exists (delete "task" params ∪ old). split_and!; [done| | |done].
    + intros name Hn. rewrite merged_lookup. by case_decide.
    + rewrite merged_lookup. by case_decide.
  - destruct (svm_set_params_frame _ _ _ _ _ _ _ Hold Hrun) as [Hm Hfail].
    exists (delete "task" params ∪ old). split_and!; [done| | |done].
    + intros name Hn. rewrite merged_lookup. by case_decide.
    + rewrite merged_lookup. by case_decide.
Qed.

Lemma X5_witness_refused_update :
  let old : kwargs := {[ "min_child_samples" := VInt 5 ]} in
  let params : kwargs := {[ "task" := VStr "regression"; "num_leaves" := VInt 7 ]} in
  let o := LightGBM.Object (Some (VStr "classification")) (Some old) (Some 0) in
  let o' := LightGBM.Object (Some (VStr "regression"))
              (Some {[ "num_leaves" := VInt 7; "min_child_samples" := VInt 5 ]}) (Some 0) in
  let h := [Estimator (L:=toy) LGBMClassifier (old ∪ list_to_map LightGBM.defaults)
              (Some ([1%Q], false))] in
  let r : result () := Raise (TypeError "got multiple values for keyword argument") in
  ∃ merged, LightGBM.self_lgbm_params o' = Some merged ∧
    (∀ name, name ≠ "task" →
       merged !! name = match params !! name with Some v => Some v | None => old !! name end) ∧
    merged !! "task" = old !! "task" ∧
    (r ≠ Ok () → h = h ∧ LightGBM.self_model o' = LightGBM.self_model o).
Proof.
  intros old params o o' h r.
  destruct (X5_set_params_merges_in_every_outcome (P:=ascii_python) (L:=toy) params h h r) as [Hlgbm _].
  apply (Hlgbm o o' old); [reflexivity|]. vm_compute. reflexivity.
Defined.

(** X6: a [set_params] whose entries name one of the keywords written out
    in the constructor call never returns: with a task that is in order it
    raises [TypeError].  The name stays in the stored dictionary, so no
    later [set_params] on the object returns either, whatever its
    entries.  For [SVMModel] the name is one written out for both
    estimator classes ([kernel], [C], [gamma]). *)
Theorem X6_set_params_naming_a_default `{P : Python} `{L : Library}
    (params : kwargs) (name : string) (h : heap) :
  is_Some (params !! name) →
  (name ∈ LightGBM.defaults.*1 →
   ∀ o old, LightGBM.self_lgbm_params o = Some old →
     let out := LightGBM.set_params params (o, h) in
     out.1 ≠ Ok () ∧
     (∀ s k, match params !! "task" with Some v => Some v | None => LightGBM.self_task o end
               = Some (VStr s) →
             LightGBM.estimator_class (str_lower s) = Some k →
             out.1 = Raise (TypeError "got multiple values for keyword argument")) ∧
     (∀ params2 h2, (LightGBM.set_params params2 (out.2.1, h2)).1 ≠ Ok ())) ∧
  (name ∈ SVMModel.defaults_classification.*1 → name ∈ SVMModel.defaults_regression.*1 →
   ∀ o old, SVMModel.self_svm_params o = Some old →
     let out := SVMModel.set_params params (o, h) in
     out.1 ≠ Ok () ∧
     (∀ s k explicit,
        match params !! "task" with Some v => Some v | None => SVMModel.self_task o end
          = Some (VStr s) →
        SVMModel.estimator_class (str_lower s) = Some (k, explicit) →
        out.1 = Raise (TypeError "got multiple values for keyword argument")) ∧
     (∀ params2 h2, (SVMModel.set_params params2 (out.2.1, h2)).1 ≠ Ok ())).
Proof.
  intros Hsome. split.
  - intros Hin o old Hold out.
    assert (∀ (p q : kwargs), is_Some (p !! name) ∨ is_Some (q !! name) →
              keyword_clash LightGBM.defaults (delete "task" p ∪ q) = true) as Hclash.
    { intros p q. by apply merged_clash; [apply lgbm_defaults_not_task|]. }
    assert (∀ p q o1 (h1 : heap), LightGBM.self_lgbm_params o1 = Some q →
              is_Some (p !! name) ∨ is_Some (q !! name) →
              (LightGBM.set_params p (o1, h1)).1 ≠ Ok ()) as Hnever.
    { intros p q o1 h1 Hq Hpq Hok.
      destruct (LightGBM.set_params p (o1, h1)) as [r [o2 h2]] eqn:Hrun. simpl in Hok. subst r.
      apply lgbm_set_params_Ok in Hrun as (q' & s & k & Hq' & _ & _ & Hno & _).
      rewrite Hq in Hq'. injection Hq' as <-. rewrite Hclash in Hno; done. }
    split_and!.
    + apply (Hnever params old); auto.
    + intros s k Ht Hk. subst out.
      rewrite (lgbm_set_params_cases _ _ _ old Hold), Ht. cbv zeta. rewrite Hk.
      rewrite new_with_keywords_clash; [done|]. apply Hclash; auto.
    + intros params2 h2.
      destruct (LightGBM.set_params params (o, h)) as [r [o' h']] eqn:Hrun.
      destruct (lgbm_set_params_frame _ _ _ _ _ _ _ Hold Hrun) as [Hm _].
      subst out. simpl. apply (Hnever params2 _ _ _ Hm). right.
      rewrite merged_lookup. case_decide as Hn.
      * subst name. by destruct lgbm_defaults_not_task.
      * destruct Hsome as [v ->]. by eexists.
  - intros Hinc Hinr o old Hold out.
    assert (∀ s k explicit (p q : kwargs),
              SVMModel.estimator_class s = Some (k, explicit) →
              is_Some (p !! name) ∨ is_Some (q !! name) →
              keyword_clash explicit (delete "task" p ∪ q) = true) as Hclash.
    { intros s k explicit p q Hk Hpq. unfold SVMModel.estimator_class in Hk.
      destruct (String.eqb s "classification").
      - injection Hk as <- <-.
        by apply (merged_clash _ _ _ name); [apply svm_defaults_classification_not_task| |].
      - destruct (String.eqb s "regression"); [|done]. injection Hk as <- <-.
        by apply (merged_clash _ _ _ name); [apply svm_defaults_regression_not_task| |]. }
    assert (∀ p q o1 (h1 : heap), SVMModel.self_svm_params o1 = Some q →
              is_Some (p !! name) ∨ is_Some (q !! name) →
              (SVMModel.set_params p (o1, h1)).1 ≠ Ok ()) as Hnever.
    { intros p q o1 h1 Hq Hpq Hok.
      destruct (SVMModel.set_params p (o1, h1)) as [r [o2 h2]] eqn:Hrun. simpl in Hok. subst r.
      apply svm_set_params_Ok in Hrun as (q' & s & k & ex & Hq' & _ & Hk & Hno & _).
      rewrite Hq in Hq'. injection Hq' as <-.
      rewrite (Hclash _ _ _ _ _ Hk) in Hno; done. }
    split_and!.
    + apply (Hnever params old); auto.
    + intros s k explicit Ht Hk. subst out.
      rewrite (svm_set_params_cases _ _ _ old Hold), Ht. cbv zeta. rewrite Hk.
      rewrite new_with_keywords_clash; [done|]. apply (Hclash _ _ _ _ _ Hk); auto.
    + intros params2 h2.
      destruct (SVMModel.set_params params (o, h)) as [r [o' h']] eqn:Hrun.
      destruct (svm_set_params_frame _ _ _ _ _ _ _ Hold Hrun) as [Hm _].
      subst out. simpl. apply (Hnever params2 _ _ _ Hm). right.
      rewrite merged_lookup. case_decide as Hn.
      * subst name. by destruct svm_defaults_classification_not_task.
      * destruct Hsome as [v ->]. by eexists.
Qed.

Lemma X6_witness_n_estimators :
  let o := LightGBM.Object (Some (VStr "classification")) (Some ∅) (Some 0) in
  let h := [Estimator (L:=toy) LGBMClassifier (list_to_map LightGBM.defaults) None] in
  let out := LightGBM.set_params (P:=ascii_python) (L:=toy) {[ "n_estimators" := VInt 50 ]} (o, h) in
  out.1 = Raise (TypeError "got multiple values for keyword argument") ∧
  (LightGBM.set_params (P:=ascii_python) (L:=toy) {[ "task" := VStr "regression" ]} (out.2.1, h)).1 ≠ Ok ().
Proof.
  intros o h out.
  destruct (X6_set_params_naming_a_default (P:=ascii_python) (L:=toy)
              {[ "n_estimators" := VInt 50 ]} "n_estimators" h) as [Hlgbm _];
    [vm_compute; by eexists|].
  destruct (Hlgbm ltac:(cbn; rewrite !elem_of_cons; auto) o ∅ eq_refl)
    as (_ & Htype & Hlater).
  split.
  - apply (Htype "classification" LGBMClassifier); reflexivity.
  - apply Hlater.
Defined.

(** ** [set_params] twice, and read back *)

Lemma next_task_union (p1 p2 : kwargs) (t0 : option value) :
  match (p2 ∪ p1) !! "task" with Some v => Some v | None => t0 end =
  match p2 !! "task" with
  | Some v => Some v
  | None => match p1 !! "task" with Some v => Some v | None => t0 end
  end.
Proof. rewrite lookup_union. by destruct (p2 !! "task"), (p1 !! "task"). Qed.

Lemma merged_union (p1 p2 old : kwargs) :
  delete "task" (p2 ∪ p1) ∪ old = delete "task" p2 ∪ (delete "task" p1 ∪ old).
Proof. by rewrite delete_union, (assoc_L (∪)). Qed.

(** X7: two calls of [set_params] that both return leave the task, the
    stored dictionary and the estimator's class and keywords that one call
    with the entries of both (the later call's first) leaves; that one call
    returns too.  The single call creates one estimator where the two
    create two. *)
Theorem X7_set_params_twice `{P : Python} `{L : Library} (p1 p2 : kwargs) (h h1 h2 : heap) :
  (∀ o o1 o2,
     LightGBM.set_params p1 (o, h) = (Ok (), (o1, h1)) →
     LightGBM.set_params p2 (o1, h1) = (Ok (), (o2, h2)) →
     ∃ o12 h12 e,
       LightGBM.set_params (p2 ∪ p1) (o, h) = (Ok (), (o12, h12)) ∧
       LightGBM.self_task o12 = LightGBM.self_task o2 ∧
       LightGBM.self_lgbm_params o12 = LightGBM.self_lgbm_params o2 ∧
       h12 = h ++ [e] ∧ h2 = h1 ++ [e] ∧ length h1 = S (length h)) ∧
  (∀ o o1 o2,
     SVMModel.set_params p1 (o, h) = (Ok (), (o1, h1)) →
     SVMModel.set_params p2 (o1, h1) = (Ok (), (o2, h2)) →
     ∃ o12 h12 e,
       SVMModel.set_params (p2 ∪ p1) (o, h) = (Ok (), (o12, h12)) ∧
       SVMModel.self_task o12 = SVMModel.self_task o2 ∧
       SVMModel.self_svm_params o12 = SVMModel.self_svm_params o2 ∧
       h12 = h ++ [e] ∧ h2 = h1 ++ [e] ∧ length h1 = S (length h)).
Proof.
  split; intros o o1 o2 H1 H2.
  - apply lgbm_set_params_Ok in H1 as (old & s1 & k1 & Hold & Ht1 & Hk1 & _ & -> & ->).
    apply lgbm_estimator_class_lower in Hk1.
    rewrite (lgbm_set_params_cases _ _ _ (delete "task" p1 ∪ old)) in H2 by done.
    cbv zeta in H2. cbn [LightGBM.self_task LightGBM.self_model] in H2.
    rewrite (lgbm_set_params_cases _ _ _ old Hold), next_task_union, merged_union, Ht1.
    cbv zeta.
    assert (∃ s2, match p2 !! "task" with Some v => Some v | None => Some (VStr (str_lower s1)) end
                  = Some (VStr s2) ∧
                  match p2 !! "task" with Some v => Some v | None => Some (VStr s1) end
                  = Some (VStr (match p2 !! "task" with Some _ => s2 | None => s1 end)) ∧
                  str_lower (match p2 !! "task" with Some _ => s2 | None => s1 end) = str_lower s2) as (s2 & Ht2 & Ht12 & Hlow).
    { destruct (p2 !! "task") as [[| | | |s2]|]; try done.
      - by exists s2.
      - exists (str_lower s1). by rewrite Hk1. }
    rewrite Ht2 in H2. rewrite Ht12, Hlow.
    destruct (LightGBM.estimator_class (str_lower s2)) as [k2|]; [|done].
    destruct (new_with_keywords k2 _ _ (h ++ _)) as [[l2|e2] h2'] eqn:Hnew; [|done].
    injection H2 as <- <-.
    rewrite (new_with_keywords_heap _ _ _ _ h _ _ Hnew).
    apply new_with_keywords_Ok in Hnew as (_ & _ & -> & ->).
    eexists _, _, _. split_and!; try done. by rewrite length_app, Nat.add_comm.
  - apply svm_set_params_Ok in H1 as (old & s1 & k1 & ex1 & Hold & Ht1 & Hk1 & _ & -> & ->).
    apply svm_estimator_class_lower in Hk1.
    rewrite (svm_set_params_cases _ _ _ (delete "task" p1 ∪ old)) in H2 by done.
    cbv zeta in H2. cbn [SVMModel.self_task SVMModel.self_model] in H2.
    rewrite (svm_set_params_cases _ _ _ old Hold), next_task_union, merged_union, Ht1.
    cbv zeta.
    assert (∃ s2, match p2 !! "task" with Some v => Some v | None => Some (VStr (str_lower s1)) end
                  = Some (VStr s2) ∧
                  match p2 !! "task" with Some v => Some v | None => Some (VStr s1) end
                  = Some (VStr (match p2 !! "task" with Some _ => s2 | None => s1 end)) ∧
                  str_lower (match p2 !! "task" with Some _ => s2 | None => s1 end) = str_lower s2) as (s2 & Ht2 & Ht12 & Hlow).
    { destruct (p2 !! "task") as [[| | | |s2]|]; try done.
      - by exists s2.
      - exists (str_lower s1). by rewrite Hk1. }
    rewrite Ht2 in H2. rewrite Ht12, Hlow.
    destruct (SVMModel.estimator_class (str_lower s2)) as [[k2 ex2]|]; [|done].
    destruct (new_with_keywords k2 _ _ (h ++ _)) as [[l2|e2] h2'] eqn:Hnew; [|done].
    injection H2 as <- <-.
    rewrite (new_with_keywords_heap _ _ _ _ h _ _ Hnew).
    apply new_with_keywords_Ok in Hnew as (_ & _ & -> & ->).
    eexists _, _, _. split_and!; try done. by rewrite length_app, Nat.add_comm.
Qed.

Lemma X7_witness_two_updates :
  let o := SVMModel.Object (Some (VStr "classification")) (Some ∅) (Some 0) in
  let h := [Estimator (L:=toy) SVC (list_to_map SVMModel.defaults_classification) None] in
  let p1 : kwargs := {[ "shrinking" := VBool false; "tol" := VFloat 0.01%Q ]} in
  let p2 : kwargs := {[ "task" := VStr "Regression"; "tol" := VFloat 0.001%Q ]} in
  let o1 := SVMModel.Object (Some (VStr "classification")) (Some p1) (Some 1) in
  let h1 := h ++ [Estimator (L:=toy) SVC (p1 ∪ list_to_map SVMModel.defaults_classification)
                    None] in
  let kw2 : kwargs := {[ "shrinking" := VBool false; "tol" := VFloat 0.001%Q ]} in
  let o2 := SVMModel.Object (Some (VStr "regression")) (Some kw2) (Some 2) in
  let h2 := h1 ++ [Estimator (L:=toy) SVR (kw2 ∪ list_to_map SVMModel.defaults_regression)
                     None] in
  ∃ o12 h12 e,
    SVMModel.set_params (P:=ascii_python) (L:=toy) (p2 ∪ p1) (o, h) = (Ok (), (o12, h12)) ∧
    SVMModel.self_task o12 = SVMModel.self_task o2 ∧
    SVMModel.self_svm_params o12 = SVMModel.self_svm_params o2 ∧
    h12 = h ++ [e] ∧ h2 = h1 ++ [e] ∧ length h1 = S (length h).
Proof.
  intros o h p1 p2 o1 h1 kw2 o2 h2.
  destruct (X7_set_params_twice (P:=ascii_python) (L:=toy) p1 p2 h h1 h2) as [_ Hsvm].
  apply (Hsvm o o1 o2); vm_compute; reflexivity.
Defined.

(** X8: on an object whose dictionary has no entry named [task], after a
    [set_params] that returned, [get_params] returns: under every name of
    the call other than [task], the value the call gave; under every other
    such name, what the dictionary held before; and under [task], the
    lower-case form of the task of the call, or of the task the object had
    when the call gave none. *)
Theorem X8_get_params_reads_back `{P : Python} `{L : Library} (params old : kwargs) (h h' : heap) :
  old !! "task" = None →
  (∀ o o', LightGBM.self_lgbm_params o = Some old →
     LightGBM.set_params params (o, h) = (Ok (), (o', h')) →
     ∃ g s,
       LightGBM.get_params (o', h') = (Ok g, (o', h')) ∧
       (∀ name, name ≠ "task" →
          g !! name = match params !! name with Some v => Some v | None => old !! name end) ∧
       match params !! "task" with Some v => Some v | None => LightGBM.self_task o end
         = Some (VStr s) ∧
       g !! "task" = Some (VStr (str_lower s))) ∧
  (∀ o o', SVMModel.self_svm_params o = Some old →
     SVMModel.set_params params (o, h) = (Ok (), (o', h')) →
     ∃ g s,
       SVMModel.get_params (o', h') = (Ok g, (o', h')) ∧
       (∀ name, name ≠ "task" →
          g !! name = match params !! name with Some v => Some v | None => old !! name end) ∧
       match params !! "task" with Some v => Some v | None => SVMModel.self_task o end
         = Some (VStr s) ∧
       g !! "task" = Some (VStr (str_lower s))).
Proof.
  intros Hnt. split; intros o o' Hold Hok.
  - apply lgbm_set_params_Ok in Hok as (old' & s & k & Hold' & Ht & _ & _ & -> & ->).
    rewrite Hold in Hold'. injection Hold' as <-.
    exists ((delete "task" params ∪ old) ∪ {[ "task" := VStr (str_lower s) ]}), s.
    split_and!; [by apply lgbm_get_params_eq| |done|].
    + intros name Hn. rewrite lookup_union, lookup_singleton_ne, merged_lookup by done.
      case_decide; [done|]. by destruct (params !! name), (old !! name).
    + by rewrite lookup_union, merged_lookup, Hnt, lookup_singleton_eq.
  - apply svm_set_params_Ok in Hok as (old' & s & k & ex & Hold' & Ht & _ & _ & -> & ->).
    rewrite Hold in Hold'. injection Hold' as <-.
    exists ((delete "task" params ∪ old) ∪ {[ "task" := VStr (str_lower s) ]}), s.
    split_and!; [by apply svm_get_params_eq| |done|].
    + intros name Hn. rewrite lookup_union, lookup_singleton_ne, merged_lookup by done.
      case_decide; [done|]. by destruct (params !! name), (old !! name).
    + by rewrite lookup_union, merged_lookup, Hnt, lookup_singleton_eq.
Qed.

Lemma X8_witness_read_back :
  let old : kwargs := {[ "min_child_samples" := VInt 5 ]} in
  let params : kwargs := {[ "task" := VStr "Regression"; "reg_alpha" := VFloat 0.5%Q ]} in
  let kw' : kwargs := {[ "reg_alpha" := VFloat 0.5%Q; "min_child_samples" := VInt 5 ]} in
  let o := LightGBM.Object (Some (VStr "classification")) (Some old) (Some 0) in
  let h := [Estimator (L:=toy) LGBMClassifier (old ∪ list_to_map LightGBM.defaults) None] in
  let o' := LightGBM.Object (Some (VStr "regression")) (Some kw') (Some 1) in
  let h' := h ++ [Estimator (L:=toy) LGBMRegressor (kw' ∪ list_to_map LightGBM.defaults) None] in
  ∃ g s,
    LightGBM.get_params (L:=toy) (o', h') = (Ok g, (o', h')) ∧
    (∀ name, name ≠ "task" →
       g !! name = match params !! name with Some v => Some v | None => old !! name end) ∧
    match params !! "task" with Some v => Some v | None => LightGBM.self_task o end
      = Some (VStr s) ∧
    g !! "task" = Some (VStr (lower s)).
Proof.
  intros old params kw' o h o' h'.
  destruct (X8_get_params_reads_back (P:=ascii_python) (L:=toy) params old h h') as [Hlgbm _]; [reflexivity|].
  apply (Hlgbm o o'); [reflexivity|]. vm_compute. reflexivity.
Defined.

(** ** What the methods leave alone *)

Section frames.
Context `{P : Python} `{L : Library}.

Lemma heap_predict_frame l X (h : heap) : (heap_predict l X h).2 = h.
Proof.
  unfold heap_predict. destruct (h !! l); [|done]. by destruct (lib_predict _ _ _ _).
Qed.

Lemma heap_predict_proba_frame l X (h : heap) : (heap_predict_proba l X h).2 = h.
Proof.
  unfold heap_predict_proba. destruct (h !! l); [|done].
  destruct (lib_has_predict_proba _ _); [|done]. by destruct (lib_predict_proba _ _ _ _).
Qed.

(** The estimator's [fit] changes what the estimator at [l] has learned,
    and nothing else in the store. *)
Lemma heap_fit_frame l X y extra (h : heap) res h' :
  heap_fit l X y extra h = (res, h') →
  length h' = length h ∧
  (∀ l', l' ≠ l → h' !! l' = h !! l') ∧
  (∀ e', h' !! l = Some e' →
     ∃ e, h !! l = Some e ∧ est_kind e' = est_kind e ∧ est_kwargs e' = est_kwargs e).
Proof.
  unfold heap_fit. destruct (h !! l) as [e|] eqn:He.
  - assert (∀ st, ∀ e',
      <[l := Estimator (est_kind e) (est_kwargs e) st]> h !! l = Some e' →
      ∃ e0, Some e = Some e0 ∧ est_kind e' = est_kind e0 ∧ est_kwargs e' = est_kwargs e0)
      as Hsame.
    { intros st e' He'. exists e. split; [done|].
      assert (l < length h) as Hlt by by eapply lookup_lt_Some.
      pose proof (list_lookup_insert_eq h l
        (Estimator (est_kind e) (est_kwargs e) st) Hlt) as Hnew.
      unfold heap, loc in *.
      assert (e' = Estimator (est_kind e) (est_kwargs e) st) as -> by congruence.
      done. }
    destruct (lib_fit _ _ _ _ _ _) as [[err rest]|st]; intros [= <- <-];
      (split_and!; [apply length_insert| |apply Hsame]);
      intros l' Hl'; by apply list_lookup_insert_ne.
  - intros [= <- <-]. split_and!; try done. intros e' He'. congruence.
Qed.

Lemma heap_fit_Ok l X y extra (h : heap) h' :
  heap_fit l X y extra h = (Ok (), h') →
  ∃ e st, h !! l = Some e ∧
    lib_fit (est_kind e) (est_kwargs e) (est_learned e) X y extra = inr st ∧
    h' = <[l := Estimator (est_kind e) (est_kwargs e) (Some st)]> h.
Proof.
  unfold heap_fit. destruct (h !! l) as [e|] eqn:He; [|done].
  destruct (lib_fit _ _ _ _ _ _) as [[err rest]|st] eqn:Hfit; [done|].
  intros [= <-]. by exists e, st.
Qed.

Lemma lgbm_read_only X y (st : LightGBM.object * heap) :
  (LightGBM.predict X st).2 = st ∧
  (LightGBM.predict_proba X st).2 = st ∧
  (LightGBM.evaluate X y st).2 = st ∧
  (LightGBM.get_params st).2 = st.
Proof.
  destruct st as [o h].
  assert ((LightGBM.predict X (o, h)).2 = (o, h)) as Hp.
  { unfold LightGBM.predict. run. destruct (LightGBM.self_model o) as [l|]; [|done]. simpl.
    pose proof (heap_predict_frame l X h). destruct (heap_predict l X h). by simplify_eq/=. }
  split_and!; [done| | |].
  - unfold LightGBM.predict_proba. run. destruct (LightGBM.self_task o) as [t|]; [|done].
    destruct (value_eq_str t "classification"); [|done].
    destruct (LightGBM.self_model o) as [l|]; [|done]. simpl.
    pose proof (heap_predict_proba_frame l X h).
    destruct (heap_predict_proba l X h). by simplify_eq/=.
  - unfold LightGBM.evaluate. unfold mbind at 1, M_bind at 1.
    destruct (LightGBM.predict X (o, h)) as [[y_pred|e] st1]; simpl in Hp; subst st1; [|done].
    run. destruct (LightGBM.self_task o) as [t|]; [|done].
    destruct (value_eq_str t "classification"); [by destruct (accuracy_score _ _)|].
    destruct (value_eq_str t "regression"); [by destruct (mean_squared_error _ _)|done].
  - unfold LightGBM.get_params. run. destruct (LightGBM.self_task o); [|done].
    by destruct (LightGBM.self_lgbm_params o).
Qed.

Lemma svm_read_only X y (st : SVMModel.object * heap) :
  (SVMModel.predict X st).2 = st ∧
  (SVMModel.predict_proba X st).2 = st ∧
  (SVMModel.evaluate X y st).2 = st ∧
  (SVMModel.get_params st).2 = st.
Proof.
  destruct st as [o h].
  assert ((SVMModel.predict X (o, h)).2 = (o, h)) as Hp.
  { unfold SVMModel.predict. run. destruct (SVMModel.self_model o) as [l|]; [|done]. simpl.
    pose proof (heap_predict_frame l X h). destruct (heap_predict l X h). by simplify_eq/=. }
  split_and!; [done| | |].
  - unfold SVMModel.predict_proba. run. destruct (SVMModel.self_task o) as [t|]; [|done].
    destruct (value_eq_str t "classification"); [|done].
    destruct (SVMModel.self_model o) as [l|] eqn:Hm; [|done]. simpl.
    unfold heap_hasattr_predict_proba. destruct (h !! l) as [e|] eqn:He; [|done]. simpl.
    destruct (lib_has_predict_proba _ _); [|done]. rewrite Hm. simpl.
    pose proof (heap_predict_proba_frame l X h).
    destruct (heap_predict_proba l X h). by simplify_eq/=.
  - unfold SVMModel.evaluate. unfold mbind at 1, M_bind at 1.
    destruct (SVMModel.predict X (o, h)) as [[y_pred|e] st1]; simpl in Hp; subst st1; [|done].
    run. destruct (SVMModel.self_task o) as [t|]; [|done].
    destruct (value_eq_str t "classification"); [by destruct (accuracy_score _ _)|].
    destruct (value_eq_str t "regression"); [by destruct (mean_squared_error _ _)|done].
  - unfold SVMModel.get_params. run. destruct (SVMModel.self_task o); [|done].
    by destruct (SVMModel.self_svm_params o).
Qed.

(** [fit] on an object without an estimator stops before the store. *)
Lemma lgbm_fit_cases X y es r o h :
  LightGBM.fit X y es r (o, h) =
  match LightGBM.self_model o with
  | None => (Raise (AttributeError "object has no attribute 'model'"), (o, h))
  | Some l =>
      let extra :=
        if truthy_list es && truthy_int r
        then Some (FitKwargs (default [] es) (default 0%Z r) false) else None in
      let '(res, h') := heap_fit l X y extra h in (res, (o, h'))
  end.
Proof.
  destruct (LightGBM.self_model o) as [l|] eqn:Hm; [by apply lgbm_fit_eq|].
  unfold LightGBM.fit. destruct (truthy_list es && truthy_int r); run; by rewrite Hm.
Qed.

Lemma svm_fit_cases X y o h :
  SVMModel.fit X y (o, h) =
  match SVMModel.self_model o with
  | None => (Raise (AttributeError "object has no attribute 'model'"), (o, h))
  | Some l => let '(res, h') := heap_fit l X y None h in (res, (o, h'))
  end.
Proof.
  destruct (SVMModel.self_model o) as [l|] eqn:Hm; [by apply svm_fit_eq|].
  unfold SVMModel.fit. run. by rewrite Hm.
Qed.

End frames.

(** X9: [predict], [predict_proba], [evaluate] and [get_params] change
    neither the object nor any estimator, whether they return or raise. *)
Theorem X9_queries_change_nothing `{L : Library} (X : features) (y : targets) :
  (∀ st, (LightGBM.predict X st).2 = st ∧ (LightGBM.predict_proba X st).2 = st ∧
         (LightGBM.evaluate X y st).2 = st ∧ (LightGBM.get_params st).2 = st) ∧
  (∀ st, (SVMModel.predict X st).2 = st ∧ (SVMModel.predict_proba X st).2 = st ∧
         (SVMModel.evaluate X y st).2 = st ∧ (SVMModel.get_params st).2 = st).
Proof. split; intros st; [apply lgbm_read_only|apply svm_read_only]. Qed.

(** X10: [fit], whether it returns or raises, changes nothing but what the
    object's own estimator has learned: the attributes of the object, and
    so what [get_params] returns, are the same, no estimator is added or
    removed, every other estimator is untouched, and the object's
    estimator keeps its class and its keywords.  (A [fit] that raises can
    leave that one estimator half fitted.) *)
Theorem X10_fit_changes_only_the_learned_state `{L : Library}
    (X : features) (y : targets) (h h' : heap) (res : result ()) :
  (∀ es r o o', LightGBM.fit X y es r (o, h) = (res, (o', h')) →
     o' = o ∧ length h' = length h ∧
     (LightGBM.get_params (o', h')).1 = (LightGBM.get_params (o, h)).1 ∧
     (∀ l, LightGBM.self_model o ≠ Some l → h' !! l = h !! l) ∧
     (∀ l e', LightGBM.self_model o = Some l → h' !! l = Some e' →
        ∃ e, h !! l = Some e ∧ est_kind e' = est_kind e ∧ est_kwargs e' = est_kwargs e)) ∧
  (∀ o o', SVMModel.fit X y (o, h) = (res, (o', h')) →
     o' = o ∧ length h' = length h ∧
     (SVMModel.get_params (o', h')).1 = (SVMModel.get_params (o, h)).1 ∧
     (∀ l, SVMModel.self_model o ≠ Some l → h' !! l = h !! l) ∧
     (∀ l e', SVMModel.self_model o = Some l → h' !! l = Some e' →
        ∃ e, h !! l = Some e ∧ est_kind e' = est_kind e ∧ est_kwargs e' = est_kwargs e)).
Proof.
  assert (∀ o (h1 h2 : heap),
            (LightGBM.get_params (o, h1)).1 = (LightGBM.get_params (o, h2)).1) as Hgl.
  { intros o h1 h2. unfold LightGBM.get_params. run.
    destruct (LightGBM.self_task o); [|done]. by destruct (LightGBM.self_lgbm_params o). }
  assert (∀ o (h1 h2 : heap),
            (SVMModel.get_params (o, h1)).1 = (SVMModel.get_params (o, h2)).1) as Hgs.
  { intros o h1 h2. unfold SVMModel.get_params. run.
    destruct (SVMModel.self_task o); [|done]. by destruct (SVMModel.self_svm_params o). }
  split.
  - intros es r o o'. rewrite lgbm_fit_cases.
    destruct (LightGBM.self_model o) as [l|].
    + cbv zeta. destruct (heap_fit l X y _ h) as [res1 h1] eqn:Hfit. intros [= -> <- ->].
      apply heap_fit_frame in Hfit as (Hlen & Hother & Hsame).
      split_and!; [done|done|apply Hgl| |].
      * intros l' Hl'. apply Hother. congruence.
      * intros l' e' [= <-]. apply Hsame.
    + intros [= <- <- <-]. split_and!; done.
  - intros o o'. rewrite svm_fit_cases.
    destruct (SVMModel.self_model o) as [l|].
    + destruct (heap_fit l X y _ h) as [res1 h1] eqn:Hfit. intros [= -> <- ->].
      apply heap_fit_frame in Hfit as (Hlen & Hother & Hsame).
      split_and!; [done|done|apply Hgs| |].
      * intros l' Hl'. apply Hother. congruence.
      * intros l' e' [= <-]. apply Hsame.
    + intros [= <- <- <-]. split_and!; done.
Qed.

Lemma X10_witness_fit :
  let X := [1%Q; 0%Q] in
  let y := [1%Q; 1%Q] in
  let o := SVMModel.Object (Some (VStr "regression")) (Some ∅) (Some 1) in
  let h := [Estimator (L:=toy) SVC (list_to_map SVMModel.defaults_classification)
              (Some ([0%Q], false));
            Estimator (L:=toy) SVR (list_to_map SVMModel.defaults_regression) None] in
  let h' := [Estimator (L:=toy) SVC (list_to_map SVMModel.defaults_classification)
               (Some ([0%Q], false));
             Estimator (L:=toy) SVR (list_to_map SVMModel.defaults_regression)
               (Some (y, false))] in
  o = o ∧ length h' = length h ∧
  (SVMModel.get_params (L:=toy) (o, h')).1 = (SVMModel.get_params (L:=toy) (o, h)).1 ∧
  (∀ l, SVMModel.self_model o ≠ Some l → h' !! l = h !! l) ∧
  (∀ l e', SVMModel.self_model o = Some l → h' !! l = Some e' →
     ∃ e, h !! l = Some e ∧ est_kind e' = est_kind e ∧ est_kwargs e' = est_kwargs e).
Proof.
  intros X y o h h'.
  destruct (X10_fit_changes_only_the_learned_state (L:=toy) X y h h' (Ok ())) as [_ Hsvm].
  apply (Hsvm o o). by vm_compute.
Defined.

(** ** [fit], then [predict] *)

(** X11: after a [fit] that returned, the object's estimator holds what the
    library's [fit] learned from the training data (and from the
    early-stopping arguments, when [LightGBM.fit] passed them), and
    [predict] answers with the library's prediction from exactly that, for
    every input. *)
Theorem X11_predict_after_fit `{L : Library} (X : features) (y : targets) (h h' : heap) :
  (∀ es r o o', LightGBM.fit X y es r (o, h) = (Ok (), (o', h')) →
     ∃ l e st,
       LightGBM.self_model o = Some l ∧ h !! l = Some e ∧
       lib_fit (est_kind e) (est_kwargs e) (est_learned e) X y
         (if truthy_list es && truthy_int r
          then Some (FitKwargs (default [] es) (default 0%Z r) false) else None) = inr st ∧
       h' !! l = Some (Estimator (est_kind e) (est_kwargs e) (Some st)) ∧
       ∀ X', LightGBM.predict X' (o', h') =
         (match lib_predict (est_kind e) (est_kwargs e) (Some st) X' with
          | inl err => Raise err
          | inr p => Ok p
          end, (o', h'))) ∧
  (∀ o o', SVMModel.fit X y (o, h) = (Ok (), (o', h')) →
     ∃ l e st,
       SVMModel.self_model o = Some l ∧ h !! l = Some e ∧
       lib_fit (est_kind e) (est_kwargs e) (est_learned e) X y None = inr st ∧
       h' !! l = Some (Estimator (est_kind e) (est_kwargs e) (Some st)) ∧
       ∀ X', SVMModel.predict X' (o', h') =
         (match lib_predict (est_kind e) (est_kwargs e) (Some st) X' with
          | inl err => Raise err
          | inr p => Ok p
          end, (o', h'))).
Proof.
  split.
  - intros es r o o'. rewrite lgbm_fit_cases.
    destruct (LightGBM.self_model o) as [l|] eqn:Hm; [|done]. cbv zeta.
    destruct (heap_fit l X y _ h) as [res1 h1] eqn:Hfit. intros [= -> <- ->].
    apply heap_fit_Ok in Hfit as (e & st & He & Hlib & ->).
    assert (l < length h) as Hlt by by eapply lookup_lt_Some.
    pose proof (list_lookup_insert_eq h l
      (Estimator (est_kind e) (est_kwargs e) (Some st)) Hlt) as Hnew.
    exists l, e, st. split_and!; try done.
    intros X'. rewrite (lgbm_predict_eq _ _ _ l Hm). unfold heap_predict.
    unfold heap, loc in *. rewrite Hnew. simpl. by destruct (lib_predict _ _ _ _).
  - intros o o'. rewrite svm_fit_cases.
    destruct (SVMModel.self_model o) as [l|] eqn:Hm; [|done].
    destruct (heap_fit l X y _ h) as [res1 h1] eqn:Hfit. intros [= -> <- ->].
    apply heap_fit_Ok in Hfit as (e & st & He & Hlib & ->).
    assert (l < length h) as Hlt by by eapply lookup_lt_Some.
    pose proof (list_lookup_insert_eq h l
      (Estimator (est_kind e) (est_kwargs e) (Some st)) Hlt) as Hnew.
    exists l, e, st. split_and!; try done.
    intros X'. rewrite (svm_predict_eq _ _ _ l Hm). unfold heap_predict.
    unfold heap, loc in *. rewrite Hnew. simpl. by destruct (lib_predict _ _ _ _).
Qed.

Lemma X11_witness_fit_predict :
  let X := [1%Q; 0%Q] in
  let y := [1%Q; 1%Q] in
  let o := LightGBM.Object (Some (VStr "classification")) (Some ∅) (Some 0) in
  let h := [Estimator (L:=toy) LGBMClassifier (list_to_map LightGBM.defaults) None] in
  let h' := [Estimator (L:=toy) LGBMClassifier (list_to_map LightGBM.defaults)
               (Some (y, true))] in
  ∃ l e st,
    LightGBM.self_model o = Some l ∧ h !! l = Some e ∧
    lib_fit (Library:=toy) (est_kind e) (est_kwargs e) (est_learned e) X y
      (Some (FitKwargs [(X, y)] 5%Z false)) = inr st ∧
    h' !! l = Some (Estimator (est_kind e) (est_kwargs e) (Some st)) ∧
    ∀ X', LightGBM.predict (L:=toy) X' (o, h') =
      (match lib_predict (Library:=toy) (est_kind e) (est_kwargs e) (Some st) X' with
       | inl err => Raise err
       | inr p => Ok p
       end, (o, h')).
Proof.
  intros X y o h h'.
  destruct (X11_predict_after_fit (L:=toy) X y h h') as [Hlgbm _].
  apply (Hlgbm (Some [(X, y)]) (Some 5%Z) o o). by vm_compute.
Defined.


Section fit_keeps.
Context `{P : Python} `{L : Library}.

Lemma heap_fit_keeps l X y extra (h : heap) res h' e :
  h !! l = Some e → heap_fit l X y extra h = (res, h') →
  ∃ e', h' !! l = Some e' ∧ est_kind e' = est_kind e ∧ est_kwargs e' = est_kwargs e.
Proof.
  intros He. unfold heap_fit. rewrite He.
  destruct (lib_fit _ _ _ _ _ _) as [[err rest]|st].
  - intros [= <- <-]. exists (Estimator (est_kind e) (est_kwargs e) rest).
    split; [|done]. apply list_lookup_insert_eq. by eapply lookup_lt_Some.
  - intros [= <- <-]. exists (Estimator (est_kind e) (est_kwargs e) (Some st)).
    split; [|done]. apply list_lookup_insert_eq. by eapply lookup_lt_Some.
Qed.

End fit_keeps.

(** X12: working order is what a returned constructor call gives, and what
    every later [set_params] that returns and every later [fit], whether it
    returns or raises, keeps: the task is still one of the two, the
    dictionary still names neither [task] nor a written-out keyword, and
    the object's estimator is still of the class of the task, with the
    dictionary over the written-out keywords as its keywords. *)
Theorem X12_working_order_is_kept `{P : Python} `{L : Library} :
  (∀ kw h o h', LightGBM.construct_kwargs kw h = (Ok o, h') → lgbm_working (o, h')) ∧
  (∀ params st st', lgbm_working st →
     LightGBM.set_params params st = (Ok (), st') → lgbm_working st') ∧
  (∀ X y es r st res st', lgbm_working st →
     LightGBM.fit X y es r st = (res, st') → lgbm_working st') ∧
  (∀ kw h o h', SVMModel.construct_kwargs kw h = (Ok o, h') → svm_working (o, h')) ∧
  (∀ params st st', svm_working st →
     SVMModel.set_params params st = (Ok (), st') → svm_working st') ∧
  (∀ X y st res st', svm_working st →
     SVMModel.fit X y st = (res, st') → svm_working st').
Proof.
  split_and!.
  - intros kw h o h'. unfold LightGBM.construct_kwargs.
    case_bool_decide; [done|].
    destruct (default (VStr "classification") (kw !! "task")) as [| | | |s]; try done.
    intros (k & Hk & Hc & _ & -> & ->)%lgbm_construct_Ok.
    exists (str_lower s), k, (delete "task" kw), (length h),
      (Estimator k (delete "task" kw ∪ list_to_map LightGBM.defaults) None). simpl.
    split_and!; try done; [apply lookup_delete_eq|apply (proj1 (proj2 (heap_alloc_fresh _ _)))].
  - intros params [o h] [o' h'] (s0 & k0 & kw & l & e & _ & _ & Hkw & Hnt & _) Hok.
    simpl in *.
    apply lgbm_set_params_Ok in Hok as (old & s & k & Hold & _ & Hk & Hc & -> & ->).
    rewrite Hkw in Hold. injection Hold as <-.
    exists (str_lower s), k, (delete "task" params ∪ kw), (length h),
      (Estimator k ((delete "task" params ∪ kw) ∪ list_to_map LightGBM.defaults) None). simpl.
    split_and!; try done;
      [by rewrite lookup_union, lookup_delete_eq, Hnt|apply (proj1 (proj2 (heap_alloc_fresh _ _)))].
  - intros X y es r [o h] res [o' h']
      (s & k & kw & l & e & Ht & Hk & Hkw & Hnt & Hc & Hm & He & Hkind & Hargs).
    simpl in *. rewrite (lgbm_fit_eq _ _ _ _ _ _ l Hm). cbv zeta.
    destruct (heap_fit l X y _ h) as [res1 h1] eqn:Hfit. intros [= -> <- ->].
    destruct (heap_fit_keeps _ _ _ _ _ _ _ _ He Hfit) as (e' & He' & Hk' & Ha').
    exists s, k, kw, l, e'. simpl. split_and!; try done; congruence.
  - intros kw h o h'. unfold SVMModel.construct_kwargs.
    case_bool_decide; [done|].
    destruct (default (VStr "classification") (kw !! "task")) as [| | | |s]; try done.
    intros (k & ex & Hk & Hc & _ & -> & ->)%svm_construct_Ok.
    exists (str_lower s), k, ex, (delete "task" kw), (length h),
      (Estimator k (delete "task" kw ∪ list_to_map ex) None). simpl.
    split_and!; try done; [apply lookup_delete_eq|apply (proj1 (proj2 (heap_alloc_fresh _ _)))].
  - intros params [o h] [o' h'] (s0 & k0 & ex0 & kw & l & e & _ & _ & Hkw & Hnt & _) Hok.
    simpl in *.
    apply svm_set_params_Ok in Hok as (old & s & k & ex & Hold & _ & Hk & Hc & -> & ->).
    rewrite Hkw in Hold. injection Hold as <-.
    exists (str_lower s), k, ex, (delete "task" params ∪ kw), (length h),
      (Estimator k ((delete "task" params ∪ kw) ∪ list_to_map ex) None). simpl.
    split_and!; try done;
      [by rewrite lookup_union, lookup_delete_eq, Hnt|apply (proj1 (proj2 (heap_alloc_fresh _ _)))].
  - intros X y [o h] res [o' h']
      (s & k & ex & kw & l & e & Ht & Hk & Hkw & Hnt & Hc & Hm & He & Hkind & Hargs).
    simpl in *. rewrite (svm_fit_eq _ _ _ _ l Hm).
    destruct (heap_fit l X y _ h) as [res1 h1] eqn:Hfit. intros [= -> <- ->].
    destruct (heap_fit_keeps _ _ _ _ _ _ _ _ He Hfit) as (e' & He' & Hk' & Ha').
    exists s, k, ex, kw, l, e'. simpl. split_and!; try done; congruence.
Qed.

Lemma X12_witness_default_task :
  lgbm_working (L:=toy)
    (LightGBM.Object (Some (VStr "classification"))
       (Some {[ "min_child_samples" := VInt 5 ]}) (Some 0),
     [Estimator (L:=toy) LGBMClassifier
        ({[ "min_child_samples" := VInt 5 ]} ∪ list_to_map LightGBM.defaults) None]).
Proof.
  destruct (X12_working_order_is_kept (P:=ascii_python) (L:=toy)) as (Hconstruct & _).
  apply (Hconstruct {[ "min_child_samples" := VInt 5 ]} []). by vm_compute.
Defined.

(** X13: on an object in working order the estimator is a classifier when
    the task is "classification" and a regressor when it is "regression".
    [predict_proba] never reaches a regressor: it raises the wrapper's own
    [AttributeError].  On a classifier that has [predict_proba] it returns,
    or raises, exactly what the estimator's [predict_proba] does, the
    not-fitted error of a classifier not yet fitted included. *)
Theorem X13_predict_proba_in_working_order `{L : Library} (X : features) :
  (∀ o h, lgbm_working (o, h) →
     ∃ s l e,
       LightGBM.self_task o = Some (VStr s) ∧ LightGBM.self_model o = Some l ∧
       h !! l = Some e ∧
       (s = "classification" ∧ est_kind e = LGBMClassifier ∨
        s = "regression" ∧ est_kind e = LGBMRegressor) ∧
       (est_kind e = LGBMRegressor →
          LightGBM.predict_proba X (o, h) =
          (Raise (AttributeError "predict_proba is only available for classification tasks"),
           (o, h))) ∧
       (est_kind e = LGBMClassifier →
        lib_has_predict_proba (est_kind e) (est_kwargs e) = true →
          LightGBM.predict_proba X (o, h) =
          (match lib_predict_proba (est_kind e) (est_kwargs e) (est_learned e) X with
           | inl err => Raise err
           | inr p => Ok p
           end, (o, h)))) ∧
  (∀ o h, svm_working (o, h) →
     ∃ s l e,
       SVMModel.self_task o = Some (VStr s) ∧ SVMModel.self_model o = Some l ∧
       h !! l = Some e ∧
       (s = "classification" ∧ est_kind e = SVC ∨
        s = "regression" ∧ est_kind e = SVR) ∧
       (est_kind e = SVR →
          SVMModel.predict_proba X (o, h) =
          (Raise (AttributeError
                    "Probability prediction is only available for classification tasks."),
           (o, h))) ∧
       (est_kind e = SVC →
        lib_has_predict_proba (est_kind e) (est_kwargs e) = true →
          SVMModel.predict_proba X (o, h) =
          (match lib_predict_proba (est_kind e) (est_kwargs e) (est_learned e) X with
           | inl err => Raise err
           | inr p => Ok p
           end, (o, h)))).
Proof.
  split; intros o h.
  - intros (s & k & kw & l & e & Ht & Hk & _ & _ & _ & Hm & He & Hkind & _). simpl in *.
    exists s, l, e. split_and!; try done.
    + subst k. by apply lgbm_estimator_class_cases.
    + intros Hreg. rewrite Hreg in Hkind. subst k.
      apply lgbm_estimator_class_cases in Hk as [[_ [=]]|[-> _]].
      by rewrite (lgbm_predict_proba_eq _ _ _ _ Ht).
    + intros Hcls Hhas. rewrite Hcls in Hkind. subst k.
      apply lgbm_estimator_class_cases in Hk as [[-> _]|[_ [=]]].
      rewrite (lgbm_predict_proba_eq _ _ _ _ Ht), Hm, (heap_predict_proba_eq _ _ _ e He).
      simpl. by rewrite Hhas.
  - intros (s & k & ex & kw & l & e & Ht & Hk & _ & _ & _ & Hm & He & Hkind & _). simpl in *.
    exists s, l, e. split_and!; try done.
    + subst k. apply svm_estimator_class_cases in Hk as [(-> & -> & _)|(-> & -> & _)]; auto.
    + intros Hreg. rewrite Hreg in Hkind. subst k.
      apply svm_estimator_class_cases in Hk as [(_ & [=] & _)|(-> & _)].
      by rewrite (svm_predict_proba_eq _ _ _ _ l e Ht Hm He).
    + intros Hcls Hhas. rewrite Hcls in Hkind. subst k.
      apply svm_estimator_class_cases in Hk as [(-> & _)|(_ & [=] & _)].
      rewrite (svm_predict_proba_eq _ _ _ _ l e Ht Hm He), (heap_predict_proba_eq _ _ _ e He).
      simpl. by rewrite Hhas.
Qed.

Lemma X13_witness_unfitted_classifier :
  let o := LightGBM.Object (Some (VStr "classification")) (Some ∅) (Some 0) in
  let h := [Estimator (L:=toy) LGBMClassifier (list_to_map LightGBM.defaults) None] in
  ∃ s l e,
    LightGBM.self_task o = Some (VStr s) ∧ LightGBM.self_model o = Some l ∧
    h !! l = Some e ∧
    (s = "classification" ∧ est_kind e = LGBMClassifier ∨
     s = "regression" ∧ est_kind e = LGBMRegressor) ∧
    (est_kind e = LGBMRegressor →
       LightGBM.predict_proba (L:=toy) [1%Q] (o, h) =
       (Raise (AttributeError "predict_proba is only available for classification tasks"),
        (o, h))) ∧
    (est_kind e = LGBMClassifier →
     lib_has_predict_proba (Library:=toy) (est_kind e) (est_kwargs e) = true →
       LightGBM.predict_proba (L:=toy) [1%Q] (o, h) =
       (match lib_predict_proba (Library:=toy) (est_kind e) (est_kwargs e)
                (est_learned e) [1%Q] with
        | inl err => Raise err
        | inr p => Ok p
        end, (o, h))).
Proof.
  intros o h.
  destruct (X13_predict_proba_in_working_order (L:=toy) [1%Q]) as [Hlgbm _].
  apply Hlgbm.
  exists "classification", LGBMClassifier, ∅, 0,
    (Estimator (L:=toy) LGBMClassifier (list_to_map LightGBM.defaults) None).
  split_and!; reflexivity.
Defined.

(** ** [evaluate] off the two tasks *)

(** X14: on an object whose stored task is neither "classification" nor
    "regression" (a rejected string, or a value that is not a string, left
    behind by a [set_params] that raised), [evaluate] raises nothing when
    [predict] returns: it computes no metric and returns [None]. *)
Theorem X14_evaluate_without_a_task `{L : Library}
    (X : features) (y y_pred : targets) (t : value) (h : heap) :
  value_eq_str t "classification" = false →
  value_eq_str t "regression" = false →
  (∀ o, LightGBM.self_task o = Some t →
     (LightGBM.predict X (o, h)).1 = Ok y_pred →
     LightGBM.evaluate X y (o, h) = (Ok None, (o, h))) ∧
  (∀ o, SVMModel.self_task o = Some t →
     (SVMModel.predict X (o, h)).1 = Ok y_pred →
     SVMModel.evaluate X y (o, h) = (Ok None, (o, h))).
Proof.
  intros Hc Hr. split; intros o Ht Hp.
  - by rewrite (lgbm_evaluate_eq _ _ _ _ _ Hp), Ht, Hc, Hr.
  - by rewrite (svm_evaluate_eq _ _ _ _ _ Hp), Ht, Hc, Hr.
Qed.

Lemma X14_witness_rejected_task :
  let h := [Estimator (L:=toy) LGBMClassifier (list_to_map LightGBM.defaults)
              (Some ([1%Q; 1%Q], false))] in
  let o := LightGBM.Object (Some (VStr "classification")) (Some ∅) (Some 0) in
  let o' := LightGBM.Object (Some (VStr "ranking")) (Some ∅) (Some 0) in
  LightGBM.set_params (P:=ascii_python) (L:=toy) {[ "task" := VStr "ranking" ]} (o, h) =
    (Raise (ValueError "Task must be 'classification' or 'regression'"), (o', h)) ∧
  LightGBM.evaluate (L:=toy) [1%Q; 0%Q] [1%Q; 1%Q] (o', h) = (Ok None, (o', h)).
Proof.
  intros h o o'. split; [by vm_compute|].
  destruct (X14_evaluate_without_a_task (L:=toy) [1%Q; 0%Q] [1%Q; 1%Q] [1%Q; 0%Q]
              (VStr "ranking") h) as [Hlgbm _]; [reflexivity|reflexivity|].
  apply (Hlgbm o'); reflexivity.
Defined.

(** X15: on an object in working order [evaluate] never returns [None]:
    when [predict] returns one prediction for each of at least one label it
    returns a number, the accuracy on a classifier and the mean squared
    error on a regressor. *)
Theorem X15_evaluate_in_working_order `{L : Library}
    (X : features) (y y_pred : targets) :
  y ≠ [] → length y_pred = length y →
  (∀ o h, lgbm_working (o, h) → (LightGBM.predict X (o, h)).1 = Ok y_pred →
     ∃ score l e,
       LightGBM.evaluate X y (o, h) = (Ok (Some score), (o, h)) ∧
       LightGBM.self_model o = Some l ∧ h !! l = Some e ∧
       (est_kind e = LGBMClassifier ∧ accuracy_score y y_pred = Ok score ∨
        est_kind e = LGBMRegressor ∧ mean_squared_error y y_pred = Ok score)) ∧
  (∀ o h, svm_working (o, h) → (SVMModel.predict X (o, h)).1 = Ok y_pred →
     ∃ score l e,
       SVMModel.evaluate X y (o, h) = (Ok (Some score), (o, h)) ∧
       SVMModel.self_model o = Some l ∧ h !! l = Some e ∧
       (est_kind e = SVC ∧ accuracy_score y y_pred = Ok score ∨
        est_kind e = SVR ∧ mean_squared_error y y_pred = Ok score)).
Proof.
  intros Hne Hlen.
  pose proof (accuracy_score_Ok y y_pred Hlen Hne) as Hacc.
  pose proof (mean_squared_error_Ok y y_pred Hlen Hne) as Hmse.
  split; intros o h.
  - intros (s & k & kw & l & e & Ht & Hk & _ & _ & _ & Hm & He & Hkind & _) Hp. simpl in *.
    rewrite (lgbm_evaluate_eq _ _ _ _ _ Hp), Ht.
    apply lgbm_estimator_class_cases in Hk as [[-> ->]|[-> ->]]; simpl.
    + rewrite Hacc. eexists _, l, e. split_and!; try done. by left.
    + rewrite Hmse. eexists _, l, e. split_and!; try done. by right.
  - intros (s & k & ex & kw & l & e & Ht & Hk & _ & _ & _ & Hm & He & Hkind & _) Hp. simpl in *.
    rewrite (svm_evaluate_eq _ _ _ _ _ Hp), Ht.
    apply svm_estimator_class_cases in Hk as [(-> & -> & _)|(-> & -> & _)]; simpl.
    + rewrite Hacc. eexists _, l, e. split_and!; try done. by left.
    + rewrite Hmse. eexists _, l, e. split_and!; try done. by right.
Qed.

Lemma X15_witness_regressor_score :
  let o := LightGBM.Object (Some (VStr "regression")) (Some ∅) (Some 0) in
  let h := [Estimator (L:=toy) LGBMRegressor (list_to_map LightGBM.defaults)
              (Some ([3%Q; 1%Q], false))] in
  ∃ score l e,
    LightGBM.evaluate (L:=toy) [1%Q; 0%Q] [3%Q; 1%Q] (o, h) = (Ok (Some score), (o, h)) ∧
    LightGBM.self_model o = Some l ∧ h !! l = Some e ∧
    (est_kind e = LGBMClassifier ∧ accuracy_score [3%Q; 1%Q] [1%Q; 0%Q] = Ok score ∨
     est_kind e = LGBMRegressor ∧ mean_squared_error [3%Q; 1%Q] [1%Q; 0%Q] = Ok score).
Proof.
  intros o h.
  destruct (X15_evaluate_in_working_order (L:=toy) [1%Q; 0%Q] [3%Q; 1%Q] [1%Q; 0%Q])
    as [Hlgbm _]; [discriminate|reflexivity|].
  apply Hlgbm; [|reflexivity].
  exists "regression", LGBMRegressor, ∅, 0,
    (Estimator (L:=toy) LGBMRegressor (list_to_map LightGBM.defaults)
       (Some ([3%Q; 1%Q], false))).
  split_and!; reflexivity.
Defined.
